(** * pikaur/print_department.py: the upgrade report and the search listing

    A shallow embedding of [pretty_format_upgradeable] (with its inner
    [pretty_format]), [pretty_format_sysupgrade], [pretty_format_repo_name]
    and [print_package_search_results], and the properties of the report
    that the specification states about them.

    Conventions.
    - A Python [str] is a [string]; package, version and repository names
      of pacman are ASCII, so [len] is [String.length] and the order of
      [str] is the lexicographic order of the character codes
      ([String.leb]).
    - A Python [int] is a [Z].
    - A call that can raise returns a [result]; [Raise e] is the exception
      leaving the function.
    - Collaborators that live in other modules (pprint, version, config,
      args) are fields of the records [Pprint] and [Env]. *)

From Stdlib Require Import ZArith List String Ascii Bool Lia.
From Stdlib Require Import Permutation Sorted DecimalString OrdersEx.
Import ListNotations.

Open Scope string_scope.
Open Scope Z_scope.

(** ** Exceptions and results *)

Inductive exn : Type :=
| TypeError
| ValueError
| KeyError
| IndexError
| NotModelled.

Inductive result (A : Type) : Type :=
| Ok (a : A)
| Raise (e : exn).

Arguments Ok {A} a.
Arguments Raise {A} e.

Definition bind {A B : Type} (m : result A) (k : A -> result B) : result B :=
  match m with
  | Ok a => k a
  | Raise e => Raise e
  end.

Notation "x <- m ;; k" := (bind m (fun x => k))
  (at level 61, m at next level, right associativity).
Notation "' pat <- m ;; k" := (bind m (fun x => match x with pat => k end))
  (at level 61, pat pattern, m at next level, right associativity).

Definition is_ok {A : Type} (m : result A) : bool :=
  match m with
  | Ok _ => true
  | Raise _ => false
  end.

(** A list comprehension whose body can raise: the first exception, in
    list order, leaves the comprehension. *)
Fixpoint mapM {A B : Type} (f : A -> result B) (l : list A) : result (list B) :=
  match l with
  | [] => Ok []
  | x :: xs =>
      y <- f x ;;
      ys <- mapM f xs ;;
      Ok (y :: ys)
  end.

(** ** Python built-ins on strings and integers *)

(** [len(s)] *)
Definition len (s : string) : Z := Z.of_nat (String.length s).

(** [sep.join(l)] *)
Definition join (sep : string) (l : list string) : string := String.concat sep l.

(** [s * n]: a count that is not positive gives the empty string. *)
Fixpoint repeat_string (s : string) (n : nat) : string :=
  match n with
  | O => ""
  | S n' => s ++ repeat_string s n'
  end.

Definition str_mul (s : string) (n : Z) : string := repeat_string s (Z.to_nat n).

(** [str(n)] for an [int]. *)
Definition str_int (n : Z) : string := NilEmpty.string_of_int (Z.to_int n).

(** ['{:04d}'.format(n)]: zero padding to four columns, the sign counted
    among them. *)
Definition format_04d (n : Z) : string :=
  let digits := NilEmpty.string_of_uint (N.to_uint (Z.to_N (Z.abs n))) in
  if n <? 0
  then "-" ++ str_mul "0" (3 - len digits) ++ digits
  else str_mul "0" (4 - len digits) ++ digits.

(** Truth value of an optional string: [None] and [''] are false. *)
Definition truthy (o : option string) : bool :=
  match o with
  | Some s => negb (s =? "")%string
  | None => false
  end.

(** [o or ''] *)
Definition or_empty (o : option string) : string :=
  match o with
  | Some s => s
  | None => ""
  end.

(** [str(o)], what ['{}'.format(o)] gives for an optional string. *)
Definition str_opt (o : option string) : string :=
  match o with
  | Some s => s
  | None => "None"
  end.

(** *** [str.format]

    The fragment of the format-string syntax with plain replacement
    fields: [{}], [{0}], [{name}], and the escapes [{{] and [}}].  A field
    with a conversion or a format specification is outside the fragment
    ([NotModelled]); the source uses those in literal templates only, which
    are written out with [format_04d] and the like. *)

Inductive piece : Type :=
| Lit (s : string)
| Auto
| Index (n : nat)
| Named (k : string).

Definition is_digit (c : ascii) : bool :=
  ((48 <=? nat_of_ascii c) && (nat_of_ascii c <=? 57))%nat.

Fixpoint all_chars (p : ascii -> bool) (s : string) : bool :=
  match s with
  | EmptyString => true
  | String c r => p c && all_chars p r
  end.

Definition plain_field_char (c : ascii) : bool :=
  negb (Ascii.eqb c "!" || Ascii.eqb c ":" || Ascii.eqb c "." || Ascii.eqb c "[")%char.

Definition field_piece (f : string) : result piece :=
  match f with
  | EmptyString => Ok Auto
  | _ =>
      if all_chars is_digit f
      then Ok (Index (match NilEmpty.uint_of_string f with
                      | Some u => Nat.of_uint u
                      | None => O
                      end))
      else if all_chars plain_field_char f then Ok (Named f)
      else Raise NotModelled
  end.

Definition snoc (s : string) (c : ascii) : string := s ++ String c EmptyString.

(** Literal text between two fields; nothing when there is none. *)
Definition lit_piece (lit : string) (rest : list piece) : list piece :=
  match lit with
  | EmptyString => rest
  | _ => Lit lit :: rest
  end.

(** [scan s fld lit]: [fld = None] while reading literal text collected in
    [lit]; [fld = Some f] inside a replacement field whose text so far is
    [f]. *)
Fixpoint scan (s : string) (fld : option string) (lit : string) : result (list piece) :=
  match fld with
  | None =>
      match s with
      | EmptyString => Ok (lit_piece lit [])
      | String "{" (String "{" r) => scan r None (snoc lit "{")
      | String "{" r => ps <- scan r (Some "") "" ;; Ok (lit_piece lit ps)
      | String "}" (String "}" r) => scan r None (snoc lit "}")
      | String "}" _ => Raise ValueError
      | String c r => scan r None (snoc lit c)
      end
  | Some f =>
      match s with
      | EmptyString => Raise ValueError
      | String "}" r => p <- field_piece f ;; ps <- scan r None "" ;; Ok (p :: ps)
      | String "{" _ => Raise ValueError
      | String c r => scan r (Some (snoc f c)) ""
      end
  end.

Fixpoint lookup (k : string) (kw : list (string * string)) : option string :=
  match kw with
  | [] => None
  | (k', v) :: rest => if (k =? k')%string then Some v else lookup k rest
  end.

(** [numbering]: [None] before the first positional field, then
    [Some (inl i)] with automatic numbering and [i] the next index, or
    [Some (inr tt)] with explicit indices; mixing the two is a
    [ValueError]. *)
Fixpoint fill (ps : list piece) (numbering : option (nat + unit))
         (args : list string) (kw : list (string * string)) : result (list string) :=
  match ps with
  | [] => Ok []
  | Lit s :: rest => t <- fill rest numbering args kw ;; Ok (s :: t)
  | Auto :: rest =>
      match numbering with
      | Some (inr _) => Raise ValueError
      | _ =>
          let i := match numbering with Some (inl i) => i | _ => O end in
          match nth_error args i with
          | Some v => t <- fill rest (Some (inl (S i))) args kw ;; Ok (v :: t)
          | None => Raise IndexError
          end
      end
  | Index n :: rest =>
      match numbering with
      | Some (inl _) => Raise ValueError
      | _ =>
          match nth_error args n with
          | Some v => t <- fill rest (Some (inr tt)) args kw ;; Ok (v :: t)
          | None => Raise IndexError
          end
      end
  | Named k :: rest =>
      match lookup k kw with
      | Some v => t <- fill rest numbering args kw ;; Ok (v :: t)
      | None => Raise KeyError
      end
  end.

(** The segments of the formatted text, in order, put together. *)
Fixpoint cat (l : list string) : string :=
  match l with
  | [] => ""
  | [s] => s
  | s :: r => s ++ cat r
  end.

(** [template.format( *args, **kw)] *)
Definition format (template : string) (args : list string)
           (kw : list (string * string)) : result string :=
  ps <- scan template None "" ;;
  segs <- fill ps None args kw ;;
  Ok (cat segs).

(** The newline character. *)
Definition nl : string := String (ascii_of_nat 10) EmptyString.

(** [sorted(l, key=key)] and [sorted(l, key=key, reverse=True)]: Python's
    sort is stable in both directions, and the sorted list is determined
    by that (see [sorted_by_unique] below), so a stable insertion sort
    stands for it.  [le] is the order on the keys, [fun a b => le b a]
    with [reverse=True]. *)
Section Sorted.
Context {A K : Type}.
Variable le : K -> K -> bool.
Variable key : A -> K.

Fixpoint insert_by (x : A) (l : list A) : list A :=
  match l with
  | [] => [x]
  | y :: ys => if le (key x) (key y) then x :: y :: ys else y :: insert_by x ys
  end.

Fixpoint sorted_by (l : list A) : list A :=
  match l with
  | [] => []
  | x :: xs => insert_by x (sorted_by xs)
  end.
End Sorted.

(** ** Collaborators *)

(** pprint's colouring primitives: [color_line(line, color_number,
    reset=True)] and [bold_line(line)]. *)
Record Pprint : Type := {
  color_line : string -> Z -> bool -> string;
  bold_line : string -> string
}.

(** What the functions read from the other modules: the terminal width
    and the paragraph wrapper of pprint, the two functions of version, the
    entries of [PikaurConfig()] that are looked up, [parse_args().quiet],
    and [datetime.fromtimestamp(t).strftime('%Y/%m/%d')], which depends on
    the local time zone. *)
Record Env : Type := {
  get_term_width : Z;
  format_paragraph : string -> string;
  get_common_version : string -> string -> string * Z;
  get_version_diff : string -> string -> string;
  colors_Version : Z;
  colors_VersionDiffOld : Z;
  colors_VersionDiffNew : Z;
  sync_UpgradeSorting : string;
  sync_AlwaysShowPkgOrigin : bool;
  args_quiet : bool;
  strftime_date : Z -> string
}.

(** Modelled from the spec: i18n's [_] (named [gettext] here) is not among
    the sources; the spec gives the messages in English, which is what the
    lookup returns without a catalogue. *)
Definition gettext (s : string) : string := s.

(** Modelled from the spec: i18n's [_n], the [pluralize(singularTemplate,
    pluralTemplate, count)] of the spec, is not among the sources:
    "singular if exactly one". *)
Definition _n (singular plural : string) (n : Z) : string :=
  if n =? 1 then singular else plural.

Definition GROUP_COLOR : Z := 4.
Definition REPLACEMENTS_COLOR : Z := 14.

(** ** Data model *)

(** core's [InstallInfo], with the fields the formatter reads.  The four
    lists hold what the formatter takes from their elements:
    [p.package.name] for [required_by], [p.name] for [provided_by].  A list
    that is [None] in Python is the empty list: both are false. *)
Record InstallInfo : Type := {
  name : string;
  current_version : option string;
  new_version : option string;
  description : option string;
  repository : option string;
  devel_pkg_age_days : option Z;
  required_by : list string;
  provided_by : list string;
  members_of : list string;
  replaces : list string
}.

(** The eight lists of [InstallInfoFetcher] that the report reads. *)
Record InstallInfoFetcher : Type := {
  repo_packages_install_info : list InstallInfo;
  thirdparty_repo_packages_install_info : list InstallInfo;
  aur_updates_install_info : list InstallInfo;
  repo_replacements_install_info : list InstallInfo;
  thirdparty_repo_replacements_install_info : list InstallInfo;
  new_repo_deps_install_info : list InstallInfo;
  new_thirdparty_repo_deps_install_info : list InstallInfo;
  aur_deps_install_info : list InstallInfo
}.

(** ** [pretty_format_upgradeable] *)

Definition default_template : string :=
  " {pkg_name}{spacing} {current_version}{spacing2}{version_separator}{new_version}{days_old}{verbose}".

Section Upgradeable.
Variable pp : Pprint.
Variable env : Env.
Variables verbose print_repo color : bool.
Variable template : option string.

(** Lines 79-83.  Without colour the two names are bound to
    [lambda line, *args: line] and [lambda line: line]; the first takes
    no keyword argument, so the call with [reset=False] raises. *)
Definition _color_line (line : string) (color_number : Z) : string :=
  if color then color_line pp line color_number true else line.

Definition _color_line_reset (line : string) (color_number : Z) (reset : bool)
  : result string :=
  if color then Ok (color_line pp line color_number reset) else Raise TypeError.

Definition _bold_line (line : string) : string :=
  if color then bold_line pp line else line.

(** Line 94: [min(int(get_term_width() / 2.5), 37)].  The quotient by the
    double 2.5 is the exact 2w/5 rounded to a double, and [int] cuts
    towards zero; below 2^52 the rounding never crosses an integer, so
    this is the truncated quotient of 2w by 5. *)
Definition column_width : Z := Z.min (Z.quot (2 * get_term_width env) 5) 37.

Definition diff_weight (pkg_update : InstallInfo) : Z :=
  snd (get_common_version env (or_empty (current_version pkg_update))
                              (or_empty (new_version pkg_update))).

Definition common_version (pkg_update : InstallInfo) : string :=
  fst (get_common_version env (or_empty (current_version pkg_update))
                              (or_empty (new_version pkg_update))).

(** Lines 96-107. *)
Definition sort_by (pkg_update : InstallInfo) : string :=
  let user_chosen_sorting := sync_UpgradeSorting env in
  if (user_chosen_sorting =? "pkgname")%string then name pkg_update
  else if (user_chosen_sorting =? "repo")%string
       then str_opt (repository pkg_update) ++ name pkg_update
       else format_04d (9999 - diff_weight pkg_update) ++ name pkg_update.

(** Lines 112-114. *)
Definition days_old (pkg_update : InstallInfo) : result string :=
  match devel_pkg_age_days pkg_update with
  | Some d =>
      if d =? 0 then Ok ""
      else t <- format (gettext "({} days old)") [str_int d] [] ;; Ok (" " ++ t)
  | None => Ok ""
  end.

(** Lines 109-128: the bold name and the origin prefix; the second
    component is [pkg_len]. *)
Definition name_with_origin (pkg_update : InstallInfo) : string * Z :=
  let pkg_name := _bold_line (name pkg_update) in
  let pkg_len := len (name pkg_update) in
  if (print_repo || verbose) && truthy (repository pkg_update)
  then (_color_line (or_empty (repository pkg_update) ++ "/") 13 ++ pkg_name,
        pkg_len + (len (or_empty (repository pkg_update)) + 1))
  else if print_repo
       then (_color_line "aur/" 9 ++ pkg_name, pkg_len + len "aur/")
       else (pkg_name, pkg_len).

(** Lines 130-145. *)
Definition add_required_by (pkg_update : InstallInfo) (st : string * Z)
  : result (string * Z) :=
  match required_by pkg_update with
  | [] => Ok st
  | _ =>
      for_plain <- format (gettext "for {pkg}") []
                     [("pkg", join ", " (required_by pkg_update))] ;;
      required_by_plain <- format " ({})" [for_plain] [] ;;
      let pkg_len := snd st + len required_by_plain in
      let dep_color := 3 in
      let names := join (_color_line ", " dep_color)
                     (map (fun p => _color_line p (dep_color + 8))
                          (required_by pkg_update)) in
      tail <- _color_line_reset "" dep_color false ;;
      for_pkg <- format (gettext "for {pkg}") [] [("pkg", names ++ tail)] ;;
      required_by_text <- format (_color_line " ({})" dep_color) [for_pkg] [] ;;
      Ok (fst st ++ required_by_text, pkg_len)
  end.

(** Lines 146-151. *)
Definition add_provided_by (pkg_update : InstallInfo) (st : string * Z)
  : string * Z :=
  match provided_by pkg_update with
  | [] => st
  | _ =>
      let provided_by_text := " (" ++ join " # " (provided_by pkg_update) ++ ")" in
      (fst st ++ _color_line provided_by_text 2, snd st + len provided_by_text)
  end.

(** Lines 152-166. *)
Definition add_members_of (pkg_update : InstallInfo) (st : string * Z)
  : result (string * Z) :=
  match members_of pkg_update with
  | [] => Ok st
  | _ =>
      let count := Z.of_nat (List.length (members_of pkg_update)) in
      grp_plain <- format (_n "{grp} group" "{grp} groups" count) []
                     [("grp", join ", " (members_of pkg_update))] ;;
      members_of_plain <- format " ({})" [grp_plain] [] ;;
      let pkg_len := snd st + len members_of_plain in
      let names := join (_color_line ", " GROUP_COLOR)
                     (map (fun g => _color_line g (GROUP_COLOR + 8))
                          (members_of pkg_update)) in
      tail <- _color_line_reset "" GROUP_COLOR false ;;
      grp <- format (_n "{grp} group" "{grp} groups" count) []
               [("grp", names ++ tail)] ;;
      members_of_text <- format (_color_line " ({})" GROUP_COLOR) [grp] [] ;;
      Ok (fst st ++ _color_line members_of_text GROUP_COLOR, pkg_len)
  end.

(** Lines 167-174. *)
Definition replaces_text (pkg_update : InstallInfo) : string :=
  " (replaces " ++ join ", " (replaces pkg_update) ++ ")".

Definition add_replaces (pkg_update : InstallInfo) (st : string * Z)
  : string * Z :=
  match replaces pkg_update with
  | [] => st
  | _ =>
      let pkg_name := fst st ++ _color_line (replaces_text pkg_update) REPLACEMENTS_COLOR in
      let pkg_len := snd st + len (replaces_text pkg_update) in
      (if negb color then "# " ++ pkg_name else pkg_name, pkg_len)
  end.

(** Lines 109-174: [pkg_name] and [pkg_len] when the template is filled. *)
Definition decorated_name (pkg_update : InstallInfo) : result (string * Z) :=
  st <- add_required_by pkg_update (name_with_origin pkg_update) ;;
  st <- add_members_of pkg_update (add_provided_by pkg_update st) ;;
  Ok (add_replaces pkg_update st).

(** Lines 184-210: the values given to the template. *)
Definition current_version_text (pkg_update : InstallInfo) : string :=
  _color_line (common_version pkg_update) (colors_Version env)
  ++ _color_line (get_version_diff env (or_empty (current_version pkg_update))
                                       (common_version pkg_update))
                 (colors_VersionDiffOld env).

Definition new_version_text (pkg_update : InstallInfo) : string :=
  _color_line (common_version pkg_update) (colors_Version env)
  ++ _color_line (get_version_diff env (or_empty (new_version pkg_update))
                                       (common_version pkg_update))
                 (colors_VersionDiffNew env).

Definition version_separator (pkg_update : InstallInfo) : string :=
  if truthy (current_version pkg_update) || truthy (new_version pkg_update)
  then " -> " else "".

Definition spacing_count (pkg_len : Z) : Z := Z.max 1 (column_width - pkg_len).

Definition spacing2_count (pkg_update : InstallInfo) (pkg_len : Z) : Z :=
  Z.max 1 (column_width - 18 - len (or_empty (current_version pkg_update))
           - Z.max (-1) (pkg_len - column_width)).

Definition verbose_text (pkg_update : InstallInfo) : string :=
  if verbose && truthy (description pkg_update)
  then nl ++ format_paragraph env (or_empty (description pkg_update))
  else "".

(** Lines 85-211. *)
Definition pretty_format (pkg_update : InstallInfo) : result (string * string) :=
  days <- days_old pkg_update ;;
  '(pkg_name, pkg_len) <- decorated_name pkg_update ;;
  line <- format (if truthy template then or_empty template else default_template) []
            [("pkg_name", pkg_name);
             ("days_old", days);
             ("current_version", current_version_text pkg_update);
             ("new_version", new_version_text pkg_update);
             ("version_separator", version_separator pkg_update);
             ("spacing", str_mul " " (spacing_count pkg_len));
             ("spacing2", str_mul " " (spacing2_count pkg_update pkg_len));
             ("verbose", verbose_text pkg_update)] ;;
  Ok (line, sort_by pkg_update).

(** Lines 213-221. *)
Definition pretty_format_upgradeable (packages_updates : list InstallInfo)
  : result string :=
  lines <- mapM pretty_format packages_updates ;;
  Ok (join nl (map fst (sorted_by String.leb snd lines))).
End Upgradeable.

(** ** [pretty_format_sysupgrade] *)

Section Sysupgrade.
Variable pp : Pprint.
Variable env : Env.

(** ['\n{} {}'.format(_color_line('::', bullet), _bold_line(label))] *)
Definition header (color : bool) (bullet : Z) (label : string) : string :=
  nl ++ _color_line pp color "::" bullet ++ " " ++ _bold_line pp color label.

(** One [if records: result.append(header); result.append(lines)] block;
    [count] is the number handed to [_n] there. *)
Definition append_category (color verbose : bool) (out : list string)
           (records : list InstallInfo) (bullet : Z) (singular plural : string)
           (count : Z) (print_repo : bool) : result (list string) :=
  match records with
  | [] => Ok out
  | _ =>
      lines <- pretty_format_upgradeable pp env verbose print_repo color None records ;;
      Ok (out ++ [header color bullet (_n singular plural count); lines])%list
  end.

Definition count_of (records : list InstallInfo) : Z := Z.of_nat (List.length records).

(** Lines 224-357. *)
Definition pretty_format_sysupgrade (install_info : InstallInfoFetcher)
           (verbose manual_package_selection : bool) : result string :=
  let color := negb manual_package_selection in
  let repo_packages_updates := repo_packages_install_info install_info in
  let thirdparty_repo_packages_updates :=
    thirdparty_repo_packages_install_info install_info in
  let aur_updates := aur_updates_install_info install_info in
  let repo_replacements := repo_replacements_install_info install_info in
  let thirdparty_repo_replacements :=
    thirdparty_repo_replacements_install_info install_info in
  let new_repo_deps :=
    if manual_package_selection then [] else new_repo_deps_install_info install_info in
  let new_thirdparty_repo_deps :=
    if manual_package_selection then []
    else new_thirdparty_repo_deps_install_info install_info in
  let new_aur_deps :=
    if manual_package_selection then [] else aur_deps_install_info install_info in
  let always_show := sync_AlwaysShowPkgOrigin env in
  out <- append_category color verbose [] repo_replacements 12
           "Repository package suggested as a replacement:"
           "Repository packages suggested as a replacement:"
           (count_of repo_replacements) always_show ;;
  out <- append_category color verbose out thirdparty_repo_replacements 12
           "Third-party repository package suggested as a replacement:"
           "Third-party repository packages suggested as a replacement:"
           (count_of repo_packages_updates) always_show ;;
  out <- append_category color verbose out repo_packages_updates 12
           "Repository package will be installed:"
           "Repository packages will be installed:"
           (count_of repo_packages_updates) always_show ;;
  out <- append_category color verbose out new_repo_deps 11
           "New dependency will be installed from repository:"
           "New dependencies will be installed from repository:"
           (count_of new_repo_deps) always_show ;;
  out <- append_category color verbose out thirdparty_repo_packages_updates 12
           "Third-party repository package will be installed:"
           "Third-party repository packages will be installed:"
           (count_of thirdparty_repo_packages_updates) true ;;
  out <- append_category color verbose out new_thirdparty_repo_deps 11
           "New dependency will be installed from third-party repository:"
           "New dependencies will be installed from third-party repository:"
           (count_of new_thirdparty_repo_deps) always_show ;;
  out <- append_category color verbose out aur_updates 14
           "AUR package will be installed:"
           "AUR packages will be installed:"
           (count_of aur_updates) false ;;
  out <- append_category color verbose out new_aur_deps 11
           "New dependency will be installed from AUR:"
           "New dependencies will be installed from AUR:"
           (count_of new_aur_deps) false ;;
  Ok (join nl (out ++ [""])%list).
End Sysupgrade.

(** Lines 360-361. *)
Definition pretty_format_repo_name (pp : Pprint) (repo_name : string) : string :=
  color_line pp (repo_name ++ "/") (len repo_name mod 5 + 10) true.

(** ** [print_package_search_results] *)

Module SearchResults.

(** Where a search record comes from: a [pyalpm.Package] of the
    database [db_name], or an [AURPackageInfo]. *)
Inductive origin : Type :=
| Repo (db_name : string)
| AUR.

Section Search.
(** Python's [float], with its arithmetic, its order, and
    ['{:.2f}'.format]; [F_of_int] is the conversion that [int * float]
    and the comparison of the [int] 1 with a [float] perform. *)
Variable F : Type.
Variable F_of_int : Z -> F.
Variables Fadd Fmul : F -> F -> F.
Variable Fle : F -> F -> bool.
Variable format_2f : F -> string.

Variable pp : Pprint.
Variable env : Env.

(** The record of the spec's data model: [numvotes], [popularity] and
    [outofdate] are absent on some AUR packages and on every repository
    package. *)
Record package : Type := {
  name : string;
  version : string;
  desc : option string;
  pkg_origin : origin;
  groups : list string;
  numvotes : option Z;
  popularity : option F;
  outofdate : option Z
}.

(** Lines 418-425. *)
Definition get_sort_key (pkg : package) : F :=
  match pkg_origin pkg, numvotes pkg, popularity pkg with
  | AUR, Some votes, Some pop => Fmul (F_of_int (votes + 1)) (Fadd pop (F_of_int 1))
  | _, _, _ => F_of_int 1
  end.

Variable local_pkgs_versions : list (string * string).
Variable enumerated : bool.
Variable enumerate_from : Z.

(** Lines 440-442. *)
Definition idx_text (pkg_idx : Z) : string :=
  if enumerated then bold_line pp (str_int (pkg_idx + enumerate_from) ++ ") ") else "".

(** Lines 444-446. *)
Definition repo_text (p : package) : string :=
  match pkg_origin p with
  | Repo db_name => pretty_format_repo_name pp db_name
  | AUR => color_line pp "aur/" 9 true
  end.

(** Lines 448-450. *)
Definition groups_text (p : package) : string :=
  match groups p with
  | [] => ""
  | gs => color_line pp ("(" ++ join " " gs ++ ") ") GROUP_COLOR true
  end.

(** Lines 452-459. *)
Definition installed_text (p : package) : result string :=
  match lookup (name p) local_pkgs_versions with
  | Some local_version =>
      if negb (version p =? local_version)%string
      then t <- format (gettext "[installed: {version}]") []
                  [("version", local_version)] ;;
           Ok (color_line pp (t ++ " ") 14 true)
      else Ok (color_line pp (gettext "[installed]" ++ " ") 14 true)
  | None => Ok ""
  end.

(** Lines 461-472. *)
Definition rating_text (p : package) : string :=
  match pkg_origin p, numvotes p, popularity p with
  | AUR, Some votes, Some pop =>
      color_line pp ("(" ++ str_int votes ++ ", " ++ format_2f pop ++ ")") 3 true
  | _, _, _ => ""
  end.

(** Lines 474-484. *)
Definition version_text (p : package) : string :=
  match pkg_origin p, outofdate p with
  | AUR, Some t =>
      color_line pp (version p ++ " [" ++ gettext "outofdate" ++ ": "
                     ++ strftime_date env t ++ "]")
                 (colors_VersionDiffOld env) true
  | _, _ => color_line pp (version p) (colors_Version env) true
  end.

(** Lines 435-495: what one turn of the loop prints, one string for
    each [print]. *)
Definition print_package (pkg_idx : Z) (p : package) : result (list string) :=
  if args_quiet env then Ok [name p]
  else
    installed <- installed_text p ;;
    Ok [idx_text pkg_idx ++ repo_text p ++ bold_line pp (name p) ++ " "
        ++ version_text p ++ " " ++ groups_text p ++ installed ++ rating_text p;
        format_paragraph env (str_opt (desc p))].

(** [for pkg_idx, package in enumerate(l)], counting from [pkg_idx]. *)
Fixpoint print_enumerated (pkg_idx : Z) (l : list package) : result (list string) :=
  match l with
  | [] => Ok []
  | p :: rest =>
      printed <- print_package pkg_idx p ;;
      more <- print_enumerated (pkg_idx + 1) rest ;;
      Ok (printed ++ more)%list
  end.

(** Lines 409-496; the result is what was printed. *)
Definition print_package_search_results (packages : list package)
  : result (list string) :=
  print_enumerated 0 (sorted_by (fun a b => Fle b a) get_sort_key packages).
End Search.

(** [enumerate_from=0] in the signature. *)
Definition default_enumerate_from : Z := 0.
End SearchResults.

(** ** A sample environment

    Instances of the collaborators, to run the functions on concrete
    inputs: colouring with SGR escape sequences, an 80-column terminal, a
    character-wise common prefix for the version functions. *)

Definition esc : string := String (ascii_of_nat 27) EmptyString.

Definition sgr_color_line (line : string) (color_number : Z) (reset : bool) : string :=
  (if 8 <=? color_number then esc ++ "[0;1m" else "")
  ++ esc ++ "[03" ++ str_int (if 8 <=? color_number then color_number - 8 else color_number)
  ++ "m" ++ line ++ (if reset then esc ++ "[0;0m" else "").

Definition sgr_bold_line (line : string) : string :=
  esc ++ "[0;1m" ++ line ++ esc ++ "[0m".

Definition sgr : Pprint :=
  {| color_line := sgr_color_line; bold_line := sgr_bold_line |}.

(** Colouring that leaves the text as it is. *)
Definition plain : Pprint :=
  {| color_line := fun line _ _ => line; bold_line := fun line => line |}.

Fixpoint common_prefix (a b : string) : string :=
  match a, b with
  | String x a', String y b' =>
      if Ascii.eqb x y then String x (common_prefix a' b') else ""
  | _, _ => ""
  end.

Definition sample_common_version (a b : string) : string * Z :=
  (common_prefix a b,
   Z.of_nat (String.length a - String.length (common_prefix a b))).

Definition sample_version_diff (full shared : string) : string :=
  substring (String.length shared) (String.length full - String.length shared) full.

Definition sample_env : Env :=
  {| get_term_width := 80;
     format_paragraph := fun s => "    " ++ s;
     get_common_version := sample_common_version;
     get_version_diff := sample_version_diff;
     colors_Version := 10;
     colors_VersionDiffOld := 11;
     colors_VersionDiffNew := 9;
     sync_UpgradeSorting := "versiondiff";
     sync_AlwaysShowPkgOrigin := false;
     args_quiet := false;
     strftime_date := fun _ => "2018/01/01" |}.

Definition with_sorting (e : Env) (sorting : string) : Env :=
  {| get_term_width := get_term_width e;
     format_paragraph := format_paragraph e;
     get_common_version := get_common_version e;
     get_version_diff := get_version_diff e;
     colors_Version := colors_Version e;
     colors_VersionDiffOld := colors_VersionDiffOld e;
     colors_VersionDiffNew := colors_VersionDiffNew e;
     sync_UpgradeSorting := sorting;
     sync_AlwaysShowPkgOrigin := sync_AlwaysShowPkgOrigin e;
     args_quiet := args_quiet e;
     strftime_date := strftime_date e |}.


(** An update of [pkg] from [cur] to [new], nothing else known. *)
Definition update (pkg : string) (cur new : option string) : InstallInfo :=
  {| name := pkg; current_version := cur; new_version := new;
     description := None; repository := None; devel_pkg_age_days := None;
     required_by := []; provided_by := []; members_of := []; replaces := [] |}.

Definition no_updates : InstallInfoFetcher :=
  {| repo_packages_install_info := [];
     thirdparty_repo_packages_install_info := [];
     aur_updates_install_info := [];
     repo_replacements_install_info := [];
     thirdparty_repo_replacements_install_info := [];
     new_repo_deps_install_info := [];
     new_thirdparty_repo_deps_install_info := [];
     aur_deps_install_info := [] |}.

(** A repository package that replaces [old]. *)
Definition replacement (pkg repo old : string) : InstallInfo :=
  {| name := pkg; current_version := None; new_version := Some "1.0";
     description := None; repository := Some repo; devel_pkg_age_days := None;
     required_by := []; provided_by := []; members_of := []; replaces := [old] |}.

(** Sample floats and search records: hundredths, as integers. *)
Module SearchSamples.
Import SearchResults.

Definition H_of_int (n : Z) : Z := 100 * n.
Definition Hmul (a b : Z) : Z := a * b / 100.
Definition H_format_2f (a : Z) : string :=
  str_int (a / 100) ++ "." ++ str_int (a mod 100 / 10) ++ str_int (a mod 10).

Definition aur_package (pkg ver : string) (votes : option Z) (pop : option Z)
  : package Z :=
  {| name := pkg; version := ver; desc := Some (pkg ++ " from the AUR");
     pkg_origin := AUR; groups := [];
     numvotes := votes; popularity := pop; outofdate := None |}.

Definition repo_package (pkg ver db : string) : package Z :=
  {| name := pkg; version := ver; desc := Some (pkg ++ " from " ++ db);
     pkg_origin := Repo db; groups := [];
     numvotes := None; popularity := None; outofdate := None |}.

Definition sample_search (enumerated : bool) (enumerate_from : Z)
           (packages : list (package Z)) : result (list string) :=
  print_package_search_results Z H_of_int Z.add Hmul Z.leb H_format_2f
    sgr sample_env [("yay", "9.0")] enumerated enumerate_from packages.

End SearchSamples.

(** ** Notions used in the statements *)

(** Keys that the order [le] does not tell apart. *)
Definition equiv_key {K : Type} (le : K -> K -> bool) (a b : K) : bool :=
  le a b && le b a.

(** [out] is [l] sorted by [key] for the order [le], elements with
    equivalent keys in the order they have in [l]. *)
Definition is_stable_sort {A K : Type} (le : K -> K -> bool) (key : A -> K)
           (out l : list A) : Prop :=
  Permutation out l
  /\ StronglySorted (fun a b => le (key a) (key b) = true) out
  /\ forall k, filter (fun x => equiv_key le k (key x)) out
               = filter (fun x => equiv_key le k (key x)) l.

(** The integers 0, ..., n - 1. *)
Definition upto (n : Z) : list Z := map Z.of_nat (seq 0 (Z.to_nat n)).

(** The three sortings that [sync.UpgradeSorting] selects. *)
Inductive sort_mode : Type :=
| ByDiffWeight
| ByName
| ByRepo.

Definition upgrade_sorting (env : Env) : sort_mode :=
  if (sync_UpgradeSorting env =? "pkgname")%string then ByName
  else if (sync_UpgradeSorting env =? "repo")%string then ByRepo
  else ByDiffWeight.

(** The categories of the report as the specification names them. *)
Inductive category : Type :=
| RepoReplacement
| ThirdpartyReplacement
| RepoUpdate
| RepoNewDep
| ThirdpartyUpdate
| ThirdpartyNewDep
| AurUpdate
| AurNewDep.

Definition category_order : list category :=
  [RepoReplacement; ThirdpartyReplacement; RepoUpdate; RepoNewDep;
   ThirdpartyUpdate; ThirdpartyNewDep; AurUpdate; AurNewDep].

Definition is_new_dep (c : category) : bool :=
  match c with
  | RepoNewDep | ThirdpartyNewDep | AurNewDep => true
  | _ => false
  end.

(** The list that the caller supplies for a category. *)
Definition supplied_records (info : InstallInfoFetcher) (c : category)
  : list InstallInfo :=
  match c with
  | RepoReplacement => repo_replacements_install_info info
  | ThirdpartyReplacement => thirdparty_repo_replacements_install_info info
  | RepoUpdate => repo_packages_install_info info
  | RepoNewDep => new_repo_deps_install_info info
  | ThirdpartyUpdate => thirdparty_repo_packages_install_info info
  | ThirdpartyNewDep => new_thirdparty_repo_deps_install_info info
  | AurUpdate => aur_updates_install_info info
  | AurNewDep => aur_deps_install_info info
  end.

(** The records the report has for a category: with manual selection the
    new dependencies are dropped. *)
Definition category_records (info : InstallInfoFetcher) (manual : bool) (c : category)
  : list InstallInfo :=
  if manual && is_new_dep c then [] else supplied_records info c.

Definition category_bullet (c : category) : Z :=
  match c with
  | RepoNewDep | ThirdpartyNewDep | AurNewDep => 11
  | AurUpdate => 14
  | _ => 12
  end.

Definition category_labels (c : category) : string * string :=
  match c with
  | RepoReplacement =>
      ("Repository package suggested as a replacement:",
       "Repository packages suggested as a replacement:")
  | ThirdpartyReplacement =>
      ("Third-party repository package suggested as a replacement:",
       "Third-party repository packages suggested as a replacement:")
  | RepoUpdate =>
      ("Repository package will be installed:",
       "Repository packages will be installed:")
  | RepoNewDep =>
      ("New dependency will be installed from repository:",
       "New dependencies will be installed from repository:")
  | ThirdpartyUpdate =>
      ("Third-party repository package will be installed:",
       "Third-party repository packages will be installed:")
  | ThirdpartyNewDep =>
      ("New dependency will be installed from third-party repository:",
       "New dependencies will be installed from third-party repository:")
  | AurUpdate =>
      ("AUR package will be installed:",
       "AUR packages will be installed:")
  | AurNewDep =>
      ("New dependency will be installed from AUR:",
       "New dependencies will be installed from AUR:")
  end.

(** The number that decides between the two labels in the source: the
    length of the category's own list, except at line 278, where the
    third-party replacements are counted by [len(repo_packages_updates)]. *)
Definition category_count (info : InstallInfoFetcher) (manual : bool) (c : category) : Z :=
  match c with
  | ThirdpartyReplacement => count_of (repo_packages_install_info info)
  | _ => count_of (category_records info manual c)
  end.

Definition category_print_repo (env : Env) (c : category) : bool :=
  match c with
  | ThirdpartyUpdate => true
  | AurUpdate | AurNewDep => false
  | _ => sync_AlwaysShowPkgOrigin env
  end.

Definition category_header (pp : Pprint) (info : InstallInfoFetcher) (manual : bool)
           (c : category) : string :=
  header pp (negb manual) (category_bullet c)
         (_n (fst (category_labels c)) (snd (category_labels c))
             (category_count info manual c)).

(** What a category that is not empty adds to the report: its header and
    its sorted lines. *)
Definition category_section (pp : Pprint) (env : Env) (info : InstallInfoFetcher)
           (verbose manual : bool) (c : category) : result (list string) :=
  lines <- pretty_format_upgradeable pp env verbose (category_print_repo env c)
             (negb manual) None (category_records info manual c) ;;
  Ok [category_header pp info manual c; lines].

Definition nonempty {A : Type} (l : list A) : bool :=
  match l with
  | [] => false
  | _ => true
  end.

(** The blocks of [pretty_format_sysupgrade], one for each category of
    [cats] in turn, and then [k] on the collected strings. *)
Fixpoint append_categories (pp : Pprint) (env : Env) (info : InstallInfoFetcher)
         (verbose manual : bool) (cats : list category) (out : list string)
         (k : list string -> result string) : result string :=
  match cats with
  | [] => k out
  | c :: rest =>
      out' <- append_category pp env (negb manual) verbose out
                (category_records info manual c) (category_bullet c)
                (fst (category_labels c)) (snd (category_labels c))
                (category_count info manual c) (category_print_repo env c) ;;
      append_categories pp env info verbose manual rest out' k
  end.

(** The same fetcher with other lists of new dependencies. *)
Definition with_new_deps (info : InstallInfoFetcher)
           (repo_deps thirdparty_deps aur_deps : list InstallInfo) : InstallInfoFetcher :=
  {| repo_packages_install_info := repo_packages_install_info info;
     thirdparty_repo_packages_install_info := thirdparty_repo_packages_install_info info;
     aur_updates_install_info := aur_updates_install_info info;
     repo_replacements_install_info := repo_replacements_install_info info;
     thirdparty_repo_replacements_install_info :=
       thirdparty_repo_replacements_install_info info;
     new_repo_deps_install_info := repo_deps;
     new_thirdparty_repo_deps_install_info := thirdparty_deps;
     aur_deps_install_info := aur_deps |}.

(** The colouring primitive keeps [' ({})'] a template with one field. *)
Definition paren_template_ok (pp : Pprint) : Prop :=
  forall (color_number : Z) (x : string),
    is_ok (format (color_line pp " ({})" color_number true) [x] []) = true.

(** Lines 109-166: [pkg_name] and [pkg_len] before the replacements. *)
Definition name_before_replaces (pp : Pprint) (verbose print_repo color : bool)
           (r : InstallInfo) : result (string * Z) :=
  st <- add_required_by pp color r (name_with_origin pp verbose print_repo color r) ;;
  add_members_of pp color r (add_provided_by pp color r st).

(** With the default template the line is the eight values in the order
    of the template, a space before the name and before the current
    version. *)
Definition default_line (pp : Pprint) (env : Env) (verbose color : bool)
           (r : InstallInfo) (days pkg_name : string) (pkg_len : Z) : string :=
  " " ++ pkg_name ++ str_mul " " (spacing_count env pkg_len)
  ++ " " ++ current_version_text pp env color r
  ++ str_mul " " (spacing2_count env r pkg_len)
  ++ version_separator r
  ++ new_version_text pp env color r
  ++ days
  ++ verbose_text env verbose r.

(** The same record with other versions. *)
Definition with_versions (r : InstallInfo) (cur new : option string) : InstallInfo :=
  {| name := name r; current_version := cur; new_version := new;
     description := description r; repository := repository r;
     devel_pkg_age_days := devel_pkg_age_days r;
     required_by := required_by r; provided_by := provided_by r;
     members_of := members_of r; replaces := replaces r |}.

(** The prefix that [pretty_format] puts before the bold name. *)
Definition origin_prefix (pp : Pprint) (verbose print_repo color : bool)
           (r : InstallInfo) : string :=
  if (print_repo || verbose) && truthy (repository r)
  then _color_line pp color (or_empty (repository r) ++ "/") 13
  else if print_repo then _color_line pp color "aur/" 9 else "".



(** Texts without the escape character, which starts every colour
    sequence. *)
Definition not_esc (c : ascii) : bool := negb (Ascii.eqb c (ascii_of_nat 27)).

Definition esc_free (s : string) : bool := all_chars not_esc s.

(** The strings of a record that reach a line without colour. *)
Definition record_esc_free (r : InstallInfo) : bool :=
  esc_free (name r)
  && esc_free (or_empty (current_version r))
  && esc_free (or_empty (new_version r))
  && esc_free (or_empty (description r))
  && esc_free (or_empty (repository r))
  && forallb esc_free (provided_by r)
  && forallb esc_free (replaces r).

(** The collaborators add no escape character of their own. *)
Definition env_esc_free (env : Env) : Prop :=
  (forall s, esc_free s = true -> esc_free (format_paragraph env s) = true)
  /\ (forall a b, esc_free a = true -> esc_free b = true ->
                  esc_free (fst (get_common_version env a b)) = true)
  /\ (forall a b, esc_free a = true -> esc_free b = true ->
                  esc_free (get_version_diff env a b) = true).

(** ** The notices: [print_not_found_packages], [print_ignored_package],
    [print_package_uptodate] *)

(** What a function writes, call by call: [print_stderr(s)] and
    [print_warning(s)] of pprint, with the string they are given. *)
Inductive output : Type :=
| Stderr (s : string)
| Warning (s : string).

(** What the notices read from pacman and updates: the versions of the
    installed packages by name, [PackageDB.get_local_dict()] with each
    package reduced to its [version], and [get_remote_package_version],
    which may give [None]. *)
Record PackageDB : Type := {
  get_local_dict : list (string * string);
  get_remote_package_version : string -> option string
}.

(** Lines 53-71. *)
Definition print_not_found_packages (pp : Pprint) (env : Env)
           (not_found_packages : list string) (repo : bool) : list output :=
  let num_packages := Z.of_nat (List.length not_found_packages) in
  Warning (bold_line pp
             (if repo
              then _n "Following package cannot be found in repositories:"
                      "Following packages cannot be found in repositories:"
                      num_packages
              else _n "Following package cannot be found in AUR:"
                      "Following packages cannot be found in AUR:"
                      num_packages))
  :: map (fun package => Stderr (format_paragraph env package)) not_found_packages.


(** Lines 396-405.  [package_source_name] is [package_source.name], the
    name of the member of core's enumeration; the subscript on the local
    dictionary raises [KeyError] for a package that is not installed. *)
Definition print_package_uptodate (pp : Pprint) (db : PackageDB)
           (package_name package_source_name : string) : result (list output) :=
  match lookup package_name (get_local_dict db) with
  | None => Raise KeyError
  | Some version =>
      message <- format (gettext "{name} {version} {package_source} package is up to date - skipping")
                   []
                   [("name", package_name);
                    ("version", bold_line pp version);
                    ("package_source", package_source_name)] ;;
      Ok [Warning message]
  end.

(** A sample database: two installed packages, one of them with a newer
    version to be had. *)
Definition sample_db : PackageDB :=
  {| get_local_dict := [("linux", "4.15"); ("yay", "9.0")];
     get_remote_package_version :=
       fun pkg => if (pkg =? "linux")%string then Some "4.16"
                  else if (pkg =? "pikaur")%string then Some "1.0" else None |}.



(** What [f] gives where it does not raise. *)
Definition value_or {A B : Type} (f : A -> result B) (default : B) (x : A) : B :=
  match f x with
  | Ok y => y
  | Raise _ => default
  end.

(** The same record with another age. *)
Definition with_age (r : InstallInfo) (age : option Z) : InstallInfo :=
  {| name := name r; current_version := current_version r;
     new_version := new_version r;
     description := description r; repository := repository r;
     devel_pkg_age_days := age;
     required_by := required_by r; provided_by := provided_by r;
     members_of := members_of r; replaces := replaces r |}.

(** * Properties *)

(** ** Formatting, on examples *)

Example format_paren x : format " ({})" [x] [] = Ok (" (" ++ x ++ ")").
Proof. reflexivity. Qed.

Example format_kw x : format "for {pkg}" [] [("pkg", x)] = Ok ("for " ++ x).
Proof. reflexivity. Qed.

Example format_single_brace : format "a}b" [] [] = Raise ValueError.
Proof. reflexivity. Qed.

Example format_04d_ex :
  map format_04d [0; 7; 42; 9999; 10000; -1; -42; -1234]
  = ["0000"; "0007"; "0042"; "9999"; "10000"; "-001"; "-042"; "-1234"].
Proof. reflexivity. Qed.

Example str_int_ex : map str_int [0; 1; 12; -3] = ["0"; "1"; "12"; "-3"].
Proof. reflexivity. Qed.

(** ** Results *)

Lemma bind_ok {A B : Type} (m : result A) (k : A -> result B) (b : B) :
  bind m k = Ok b -> exists a, m = Ok a /\ k a = Ok b.
Proof.
  destruct m as [a | e]; simpl; intro H; [eauto | discriminate].
Qed.

Lemma mapM_ok_length {A B : Type} (f : A -> result B) (l : list A) (out : list B) :
  mapM f l = Ok out -> List.length out = List.length l.
Proof.
  revert out; induction l as [| x xs IH]; simpl; intros out H.
  - now inversion H.
  - apply bind_ok in H as (y & _ & H).
    apply bind_ok in H as (ys & Hys & H).
    inversion H; subst; simpl; f_equal; auto.
Qed.

Lemma mapM_ok_map {A B C : Type} (f : A -> result B) (g : B -> C) (h : A -> C)
      (l : list A) (out : list B) :
  (forall x y, f x = Ok y -> g y = h x) ->
  mapM f l = Ok out -> map g out = map h l.
Proof.
  intro Hfg; revert out; induction l as [| x xs IH]; simpl; intros out H.
  - now inversion H.
  - apply bind_ok in H as (y & Hy & H).
    apply bind_ok in H as (ys & Hys & H).
    inversion H; subst; simpl; f_equal; auto.
Qed.

(** ** The stable sort *)

Section SortedFacts.
Context {A K : Type}.
Variable le : K -> K -> bool.
Variable key : A -> K.
Hypothesis le_total : forall a b, le a b = true \/ le b a = true.
Hypothesis le_trans : forall a b c, le a b = true -> le b c = true -> le a c = true.

Let R (a b : A) : Prop := le (key a) (key b) = true.

Lemma insert_by_perm (x : A) (l : list A) :
  Permutation (insert_by le key x l) (x :: l).
Proof.
  induction l as [| y ys IH]; simpl.
  - apply Permutation_refl.
  - destruct (le (key x) (key y)).
    + apply Permutation_refl.
    + apply perm_trans with (y :: x :: ys).
      * now apply perm_skip.
      * apply perm_swap.
Qed.

Lemma sorted_by_perm (l : list A) : Permutation (sorted_by le key l) l.
Proof.
  induction l as [| x xs IH]; simpl.
  - apply perm_nil.
  - apply perm_trans with (x :: sorted_by le key xs).
    + apply insert_by_perm.
    + now apply perm_skip.
Qed.

Lemma insert_by_sorted (x : A) (l : list A) :
  StronglySorted R l -> StronglySorted R (insert_by le key x l).
Proof.
  induction l as [| y ys IH]; simpl; intro Hs.
  - repeat constructor.
  - inversion Hs as [| ? ? Hys Hall]; subst.
    destruct (le (key x) (key y)) eqn:Hxy.
    + constructor; [assumption |].
      constructor; [exact Hxy |].
      eapply Forall_impl; [| exact Hall].
      intros z Hz; unfold R in *; eauto.
    + constructor; [auto |].
      assert (Hyx : R y x).
      { unfold R. destruct (le_total (key x) (key y)); congruence. }
      eapply Permutation_Forall.
      * apply Permutation_sym, insert_by_perm.
      * constructor; assumption.
Qed.

Lemma sorted_by_sorted (l : list A) : StronglySorted R (sorted_by le key l).
Proof.
  induction l as [| x xs IH]; simpl.
  - constructor.
  - now apply insert_by_sorted.
Qed.

Lemma insert_by_filter (k : K) (x : A) (l : list A) :
  filter (fun y => equiv_key le k (key y)) (insert_by le key x l)
  = filter (fun y => equiv_key le k (key y)) (x :: l).
Proof.
  induction l as [| y ys IH]; [reflexivity |].
  cbn [insert_by].
  destruct (le (key x) (key y)) eqn:Hxy; [reflexivity |].
  cbn [filter] in *. rewrite IH.
  destruct (equiv_key le k (key x)) eqn:Hkx, (equiv_key le k (key y)) eqn:Hky;
    try reflexivity.
  exfalso.
  unfold equiv_key in Hkx, Hky.
  apply andb_prop in Hkx as [Hkx Hxk].
  apply andb_prop in Hky as [Hky Hyk].
  rewrite (le_trans _ _ _ Hxk Hky) in Hxy. discriminate.
Qed.

Lemma sorted_by_filter (k : K) (l : list A) :
  filter (fun y => equiv_key le k (key y)) (sorted_by le key l)
  = filter (fun y => equiv_key le k (key y)) l.
Proof.
  induction l as [| x xs IH]; [reflexivity |].
  cbn [sorted_by]. rewrite insert_by_filter.
  cbn [filter]. now rewrite IH.
Qed.

Lemma sorted_by_stable_sort (l : list A) :
  is_stable_sort le key (sorted_by le key l) l.
Proof.
  split; [apply sorted_by_perm |].
  split; [apply sorted_by_sorted | intro k; apply sorted_by_filter].
Qed.

(** Two sorted lists that list every class of equivalent keys in the
    same order are the same list: a stable sort has one result. *)
Lemma stable_sorted_unique (l1 l2 : list A) :
  StronglySorted R l1 -> StronglySorted R l2 ->
  (forall k, filter (fun x => equiv_key le k (key x)) l1
             = filter (fun x => equiv_key le k (key x)) l2) ->
  l1 = l2.
Proof.
  revert l2; induction l1 as [| a l1 IH]; intros l2 H1 H2 Hf.
  - destruct l2 as [| b l2]; [reflexivity |].
    specialize (Hf (key b)). cbn [filter] in Hf.
    assert (Hb : equiv_key le (key b) (key b) = true).
    { unfold equiv_key. destruct (le_total (key b) (key b)) as [H | H]; now rewrite H. }
    rewrite Hb in Hf. discriminate.
  - assert (Haa : equiv_key le (key a) (key a) = true).
    { unfold equiv_key. destruct (le_total (key a) (key a)) as [H | H]; now rewrite H. }
    destruct l2 as [| b l2].
    { specialize (Hf (key a)). cbn [filter] in Hf. rewrite Haa in Hf. discriminate. }
    assert (Hbb : equiv_key le (key b) (key b) = true).
    { unfold equiv_key. destruct (le_total (key b) (key b)) as [H | H]; now rewrite H. }
    inversion H1 as [| ? ? H1' Ha]; subst.
    inversion H2 as [| ? ? H2' Hb]; subst.
    assert (Hin_a : In a (b :: l2)).
    { pose proof (Hf (key a)) as E.
      assert (In a (filter (fun x => equiv_key le (key a) (key x)) (b :: l2))) as Hin
          by (rewrite <- E; cbn [filter]; rewrite Haa; now left).
      now apply filter_In in Hin. }
    assert (Hin_b : In b (a :: l1)).
    { pose proof (Hf (key b)) as E.
      assert (In b (filter (fun x => equiv_key le (key b) (key x)) (b :: l2))) as Hin
          by (cbn [filter]; rewrite Hbb; now left).
      rewrite <- E in Hin. now apply filter_In in Hin. }
    assert (Hba : le (key b) (key a) = true).
    { destruct Hin_a as [-> | Hin]; [now apply andb_prop in Haa |].
      rewrite Forall_forall in Hb. now apply Hb. }
    assert (Hab : le (key a) (key b) = true).
    { destruct Hin_b as [<- | Hin]; [now apply andb_prop in Haa |].
      rewrite Forall_forall in Ha. now apply Ha. }
    assert (Heq : a = b).
    { pose proof (Hf (key a)) as E. cbn [filter] in E. rewrite Haa in E.
      assert (Hab' : equiv_key le (key a) (key b) = true)
        by (unfold equiv_key; now rewrite Hab, Hba).
      rewrite Hab' in E. now inversion E. }
    subst b. f_equal. apply IH; try assumption.
    intro k. specialize (Hf k). cbn [filter] in Hf.
    destruct (equiv_key le k (key a)); [now inversion Hf | assumption].
Qed.

Lemma sorted_by_unique (out l : list A) :
  is_stable_sort le key out l -> out = sorted_by le key l.
Proof.
  intros (_ & Hs & Hf).
  apply stable_sorted_unique; [assumption | apply sorted_by_sorted |].
  intro k. rewrite Hf. symmetry. apply sorted_by_filter.
Qed.
End SortedFacts.

(** ** The order of [str] *)

Lemma compare_refl (s : string) : String.compare s s = Eq.
Proof.
  pose proof (String.compare_antisym s s) as H.
  destruct (String.compare s s); simpl in H; congruence.
Qed.

Lemma compare_lt_trans (s1 s2 s3 : string) :
  String.compare s1 s2 = Lt -> String.compare s2 s3 = Lt -> String.compare s1 s3 = Lt.
Proof.
  change String.compare with String_as_OT.compare.
  apply String_as_OT.lt_strorder.
Qed.

Lemma leb_trans (s1 s2 s3 : string) :
  (s1 <=? s2)%string = true -> (s2 <=? s3)%string = true -> (s1 <=? s3)%string = true.
Proof.
  unfold String.leb.
  destruct (String.compare s1 s2) eqn:H12; try discriminate;
    destruct (String.compare s2 s3) eqn:H23; try discriminate; intros _ _.
  - apply String.compare_eq_iff in H12, H23. subst. now rewrite compare_refl.
  - apply String.compare_eq_iff in H12. subst. now rewrite H23.
  - apply String.compare_eq_iff in H23. subst. now rewrite H12.
  - now rewrite (compare_lt_trans _ _ _ H12 H23).
Qed.

Lemma equiv_key_leb (a b : string) :
  equiv_key String.leb a b = (a =? b)%string.
Proof.
  unfold equiv_key.
  destruct (String.eqb_spec a b) as [-> | Hne].
  - unfold String.leb. now rewrite compare_refl.
  - destruct (a <=? b)%string eqn:Hab, (b <=? a)%string eqn:Hba; try reflexivity.
    exfalso. apply Hne. now apply String.leb_antisym.
Qed.

(** Behind prefixes of one length, the prefixes decide, and the rest when
    they are equal. *)
Lemma compare_app (p1 p2 n1 n2 : string) :
  String.length p1 = String.length p2 ->
  String.compare (p1 ++ n1) (p2 ++ n2)
  = match String.compare p1 p2 with
    | Eq => String.compare n1 n2
    | c => c
    end.
Proof.
  revert p2; induction p1 as [| c1 p1 IH]; intros [| c2 p2] Hlen;
    try discriminate; [reflexivity |].
  simpl in Hlen. injection Hlen as Hlen.
  simpl. destruct (Ascii.compare c1 c2); try reflexivity.
  now apply IH.
Qed.

(** ** ['{:04d}'] on 0..9999: four digits, in the order of the numbers *)

Lemma in_upto (n x : Z) : 0 <= x < n -> In x (upto n).
Proof.
  intro H. unfold upto. apply in_map_iff.
  exists (Z.to_nat x). split; [lia |]. apply in_seq. lia.
Qed.

Lemma format_04d_length (x : Z) :
  0 <= x <= 9999 -> String.length (format_04d x) = 4%nat.
Proof.
  intro H.
  assert (Hall : forallb (fun x => Nat.eqb (String.length (format_04d x)) 4)
                         (upto 10000) = true) by (vm_compute; reflexivity).
  rewrite forallb_forall in Hall.
  apply Nat.eqb_eq, Hall, in_upto. lia.
Qed.

Lemma format_04d_succ (x : Z) :
  0 <= x < 9999 -> String.compare (format_04d x) (format_04d (x + 1)) = Lt.
Proof.
  intro H.
  assert (Hall : forallb (fun x => (format_04d x <? format_04d (x + 1))%string)
                         (upto 9999) = true) by (vm_compute; reflexivity).
  rewrite forallb_forall in Hall.
  specialize (Hall x (in_upto 9999 x H)).
  unfold String.ltb in Hall.
  now destruct (String.compare (format_04d x) (format_04d (x + 1))).
Qed.

Lemma format_04d_lt (x y : Z) :
  0 <= x -> x < y -> y <= 9999 ->
  String.compare (format_04d x) (format_04d y) = Lt.
Proof.
  intros Hx Hxy Hy.
  replace y with (x + 1 + Z.of_nat (Z.to_nat (y - x - 1))) in * by lia.
  induction (Z.to_nat (y - x - 1)) as [| n IH].
  - rewrite Z.add_0_r. apply format_04d_succ. lia.
  - eapply compare_lt_trans.
    + apply IH; lia.
    + replace (x + 1 + Z.of_nat (S n)) with (x + 1 + Z.of_nat n + 1) by lia.
      apply format_04d_succ. lia.
Qed.

(** Outside 0..9999 the text has a sign or a fifth digit and no longer
    follows the numbers. *)
Example format_04d_out_of_range :
  (format_04d (9999 - 10000) <? format_04d (9999 - 10001))%string = true
  /\ (format_04d 10000 <? format_04d 9999)%string = true.
Proof. split; reflexivity. Qed.

(** ** The line of one update *)

Section LineFacts.
Variable pp : Pprint.
Variable env : Env.
Variables verbose print_repo color : bool.

Lemma days_old_ok (r : InstallInfo) : exists days, days_old r = Ok days.
Proof.
  unfold days_old.
  destruct (devel_pkg_age_days r) as [d |]; [| eauto].
  destruct (d =? 0); eexists; reflexivity.
Qed.

Lemma pretty_format_sort_by (template : option string) (r : InstallInfo)
      (line key : string) :
  pretty_format pp env verbose print_repo color template r = Ok (line, key) ->
  key = sort_by env r.
Proof.
  unfold pretty_format. intro H.
  apply bind_ok in H as (days & _ & H).
  apply bind_ok in H as ([pkg_name pkg_len] & _ & H).
  apply bind_ok in H as (l & _ & H).
  now inversion H.
Qed.

Lemma pretty_format_default (r : InstallInfo) :
  pretty_format pp env verbose print_repo color None r
  = (days <- days_old r ;;
     st <- decorated_name pp verbose print_repo color r ;;
     Ok (default_line pp env verbose color r days (fst st) (snd st), sort_by env r)).
Proof.
  unfold pretty_format.
  destruct (days_old r) as [days |]; [| reflexivity].
  destruct (decorated_name pp verbose print_repo color r) as [[pkg_name pkg_len] |];
    reflexivity.
Qed.

(** Only the decoration of the name can raise. *)
Lemma pretty_format_default_is_ok (r : InstallInfo) :
  is_ok (pretty_format pp env verbose print_repo color None r)
  = is_ok (decorated_name pp verbose print_repo color r).
Proof.
  rewrite pretty_format_default.
  destruct (days_old_ok r) as (days & ->).
  now destruct (decorated_name pp verbose print_repo color r).
Qed.
End LineFacts.

(** ** The sorted set of updates (C3) *)

Lemma sort_by_mode (env : Env) (r : InstallInfo) :
  sort_by env r
  = match upgrade_sorting env with
    | ByName => name r
    | ByRepo => str_opt (repository r) ++ name r
    | ByDiffWeight => format_04d (9999 - diff_weight env r) ++ name r
    end.
Proof.
  unfold sort_by, upgrade_sorting.
  destruct (sync_UpgradeSorting env =? "pkgname")%string; [reflexivity |].
  now destruct (sync_UpgradeSorting env =? "repo")%string.
Qed.

Lemma sort_by_diff_weight (env : Env) (r1 r2 : InstallInfo) :
  upgrade_sorting env = ByDiffWeight ->
  0 <= diff_weight env r1 <= 9999 ->
  0 <= diff_weight env r2 <= 9999 ->
  (diff_weight env r2 < diff_weight env r1 ->
   (sort_by env r1 <? sort_by env r2)%string = true)
  /\ (diff_weight env r1 = diff_weight env r2 ->
      (sort_by env r1 <=? sort_by env r2)%string = (name r1 <=? name r2)%string).
Proof.
  intros Hmode H1 H2.
  rewrite !sort_by_mode, Hmode.
  unfold String.ltb, String.leb.
  rewrite compare_app by (rewrite !format_04d_length; lia || reflexivity).
  split.
  - intro Hlt. rewrite format_04d_lt; [reflexivity | lia ..].
  - intros ->. now rewrite compare_refl.
Qed.

(** The three sortings on the same updates; a record without repository
    is sorted under the text of [None]. *)
Example upgrade_sorting_modes :
  let records := [update "foo" (Some "1.2.3") (Some "1.3.0");
                  replacement "bar" "extra" "baz";
                  update "abc" (Some "1.2.3") (Some "1.3.1")] in
  map (sort_by sample_env) records = ["9996foo"; "9999bar"; "9996abc"]
  /\ map (sort_by (with_sorting sample_env "pkgname")) records = ["foo"; "bar"; "abc"]
  /\ map (sort_by (with_sorting sample_env "repo")) records
     = ["Nonefoo"; "extrabar"; "Noneabc"].
Proof. repeat split. Qed.

(** C3.  [pretty_format_upgradeable] renders every record, sorts the
    rendered lines by their sort key with a stable sort (a permutation of
    the lines, ascending keys, equal keys in input order) and joins them
    with newlines.  The key is the name with [pkgname], the repository
    followed by the name with [repo], and otherwise 9999 minus the diff
    weight on four digits followed by the name: for weights in 0..9999 a
    larger weight gives a smaller key, and equal weights leave the order of
    the names. *)
Theorem upgrade_set_sorted_by_key
        (pp : Pprint) (env : Env) (verbose print_repo color : bool)
        (template : option string) (records : list InstallInfo) (text : string) :
  pretty_format_upgradeable pp env verbose print_repo color template records = Ok text ->
  exists lines,
    mapM (pretty_format pp env verbose print_repo color template) records = Ok lines
    /\ map snd lines = map (sort_by env) records
    /\ text = join nl (map fst (sorted_by String.leb snd lines))
    /\ is_stable_sort String.leb snd (sorted_by String.leb snd lines) lines
    /\ (forall r,
          sort_by env r
          = match upgrade_sorting env with
            | ByName => name r
            | ByRepo => str_opt (repository r) ++ name r
            | ByDiffWeight => format_04d (9999 - diff_weight env r) ++ name r
            end)
    /\ (upgrade_sorting env = ByDiffWeight ->
        forall r1 r2,
          0 <= diff_weight env r1 <= 9999 ->
          0 <= diff_weight env r2 <= 9999 ->
          (diff_weight env r2 < diff_weight env r1 ->
           (sort_by env r1 <? sort_by env r2)%string = true)
          /\ (diff_weight env r1 = diff_weight env r2 ->
              (sort_by env r1 <=? sort_by env r2)%string
              = (name r1 <=? name r2)%string)).
Proof.
  unfold pretty_format_upgradeable. intro H.
  apply bind_ok in H as (lines & Hlines & H).
  exists lines. repeat split.
  - exact Hlines.
  - eapply mapM_ok_map; [| exact Hlines].
    intros r [line key] Hr. simpl. eapply pretty_format_sort_by, Hr.
  - now inversion H.
  - apply sorted_by_perm.
  - apply sorted_by_sorted; [apply String.leb_total | apply leb_trans].
  - intro k. apply sorted_by_filter. apply leb_trans.
  - apply sort_by_mode.
  - now apply sort_by_diff_weight.
  - now apply sort_by_diff_weight.
Qed.

Lemma upgrade_set_sorted_by_key_witness :
  let foo := update "foo" (Some "1.2.3") (Some "1.3.0") in
  let bar := update "bar" (Some "1.2.3") (Some "2.0") in
  let abc := update "abc" (Some "1.2.3") (Some "1.3.1") in
  pretty_format_upgradeable plain sample_env false false false None [foo; bar; abc]
  = Ok (" bar                              1.2.3           -> 2.0" ++ nl ++
        " abc                              1.2.3           -> 1.3.1" ++ nl ++
        " foo                              1.2.3           -> 1.3.0")
  /\ (exists lines,
        mapM (pretty_format plain sample_env false false false None) [foo; bar; abc]
        = Ok lines
        /\ map snd lines = ["9996foo"; "9994bar"; "9996abc"]
        /\ is_stable_sort String.leb snd (sorted_by String.leb snd lines) lines)
  /\ map (diff_weight sample_env) [foo; bar; abc] = [3; 5; 3]
  /\ (sort_by sample_env bar <? sort_by sample_env foo)%string = true
  /\ (sort_by sample_env abc <=? sort_by sample_env foo)%string = ("abc" <=? "foo")%string.
Proof.
  intros foo bar abc.
  assert (H : pretty_format_upgradeable plain sample_env false false false None
                                        [foo; bar; abc]
              = Ok (" bar                              1.2.3           -> 2.0" ++ nl ++
                    " abc                              1.2.3           -> 1.3.1" ++ nl ++
                    " foo                              1.2.3           -> 1.3.0"))
    by reflexivity.
  split; [exact H |].
  destruct (upgrade_set_sorted_by_key _ _ _ _ _ _ _ _ H)
    as (lines & Hlines & Hkeys & _ & Hsort & _ & Hweight).
  split; [exists lines; repeat split; try assumption; apply Hsort |].
  split; [reflexivity |].
  split.
  - destruct (Hweight eq_refl bar foo) as [Hlt _];
      [vm_compute; split; discriminate | vm_compute; split; discriminate |].
    apply Hlt. reflexivity.
  - destruct (Hweight eq_refl abc foo) as [_ Heq];
      [vm_compute; split; discriminate | vm_compute; split; discriminate |].
    apply Heq. reflexivity.
Defined.

(** ** The report by categories (C1, C2, C4) *)

Lemma pretty_format_sysupgrade_blocks (pp : Pprint) (env : Env)
      (info : InstallInfoFetcher) (verbose manual : bool) :
  pretty_format_sysupgrade pp env info verbose manual
  = append_categories pp env info verbose manual category_order []
      (fun out => Ok (join nl (out ++ [""])%list)).
Proof. destruct manual; reflexivity. Qed.

Lemma append_categories_sections (pp : Pprint) (env : Env) (info : InstallInfoFetcher)
      (verbose manual : bool) (cats : list category) (out : list string)
      (k : list string -> result string) :
  append_categories pp env info verbose manual cats out k
  = (sections <- mapM (category_section pp env info verbose manual)
                   (filter (fun c => nonempty (category_records info manual c)) cats) ;;
     k (out ++ List.concat sections)%list).
Proof.
  revert out; induction cats as [| c rest IH]; intro out.
  - simpl. now rewrite app_nil_r.
  - cbn [append_categories filter].
    unfold append_category at 1.
    destruct (category_records info manual c) as [| r rs] eqn:Hrec.
    + simpl. apply IH.
    + cbn [nonempty mapM bind].
      unfold category_section at 1. rewrite Hrec.
      destruct (pretty_format_upgradeable pp env verbose (category_print_repo env c)
                  (negb manual) None (r :: rs)) as [lines | e]; [| reflexivity].
      cbn [bind]. rewrite IH.
      destruct (mapM (category_section pp env info verbose manual)
                  (filter (fun c0 => nonempty (category_records info manual c0)) rest))
        as [sections | e]; [| reflexivity].
      cbn [bind List.concat]. now rewrite <- app_assoc.
Qed.

(** C1.  The report is made of the sections of the categories that have
    records, taken in the order repo-replacement, thirdparty-replacement,
    repo-update, repo-new-dep, thirdparty-update, thirdparty-new-dep,
    aur-update, aur-new-dep, each a header and its lines, and a closing
    empty string; a category without records adds nothing, no header
    either.  Without manual selection the records of a category are the
    supplied ones. *)
Theorem sysupgrade_category_order
        (pp : Pprint) (env : Env) (info : InstallInfoFetcher) (verbose manual : bool) :
  pretty_format_sysupgrade pp env info verbose manual
  = (sections <- mapM (category_section pp env info verbose manual)
                   (filter (fun c => nonempty (category_records info manual c))
                           [RepoReplacement; ThirdpartyReplacement; RepoUpdate;
                            RepoNewDep; ThirdpartyUpdate; ThirdpartyNewDep;
                            AurUpdate; AurNewDep]) ;;
     Ok (join nl (List.concat sections ++ [""])%list))
  /\ forall c, category_records info false c = supplied_records info c.
Proof.
  split; [| reflexivity].
  rewrite pretty_format_sysupgrade_blocks.
  apply append_categories_sections.
Qed.

(** One record in each category: the eight headers, in the order of the
    report. *)
Example sysupgrade_all_categories :
  pretty_format_sysupgrade plain sample_env
    {| repo_packages_install_info := [update "r-up" None (Some "1")];
       thirdparty_repo_packages_install_info := [update "t-up" None (Some "1")];
       aur_updates_install_info := [update "a-up" None (Some "1")];
       repo_replacements_install_info := [update "r-repl" None (Some "1")];
       thirdparty_repo_replacements_install_info := [update "t-repl" None (Some "1")];
       new_repo_deps_install_info := [update "r-dep" None (Some "1")];
       new_thirdparty_repo_deps_install_info := [update "t-dep" None (Some "1")];
       aur_deps_install_info := [update "a-dep" None (Some "1")] |} false false
  = Ok (nl ++ ":: Repository package suggested as a replacement:" ++ nl
        ++ " r-repl" ++ str_mul " " 42 ++ " -> 1" ++ nl
        ++ nl ++ ":: Third-party repository package suggested as a replacement:" ++ nl
        ++ " t-repl" ++ str_mul " " 42 ++ " -> 1" ++ nl
        ++ nl ++ ":: Repository package will be installed:" ++ nl
        ++ " r-up" ++ str_mul " " 44 ++ " -> 1" ++ nl
        ++ nl ++ ":: New dependency will be installed from repository:" ++ nl
        ++ " r-dep" ++ str_mul " " 43 ++ " -> 1" ++ nl
        ++ nl ++ ":: Third-party repository package will be installed:" ++ nl
        ++ " aur/t-up" ++ str_mul " " 40 ++ " -> 1" ++ nl
        ++ nl ++ ":: New dependency will be installed from third-party repository:" ++ nl
        ++ " t-dep" ++ str_mul " " 43 ++ " -> 1" ++ nl
        ++ nl ++ ":: AUR package will be installed:" ++ nl
        ++ " a-up" ++ str_mul " " 44 ++ " -> 1" ++ nl
        ++ nl ++ ":: New dependency will be installed from AUR:" ++ nl
        ++ " a-dep" ++ str_mul " " 43 ++ " -> 1" ++ nl).
Proof. reflexivity. Qed.

(** C4, at lines 272-279.  The header of the third-party replacements is
    chosen by the number of repository updates: with one third-party
    replacement and no repository update it is the plural label, and with
    two third-party replacements and one repository update it is the
    singular one. *)
Theorem thirdparty_replacement_header_counts_repo_updates :
  pretty_format_sysupgrade sgr sample_env
    {| repo_packages_install_info := [];
       thirdparty_repo_packages_install_info := [];
       aur_updates_install_info := [];
       repo_replacements_install_info := [];
       thirdparty_repo_replacements_install_info :=
         [update "foo" (Some "1.2.3") (Some "1.3.0")];
       new_repo_deps_install_info := [];
       new_thirdparty_repo_deps_install_info := [];
       aur_deps_install_info := [] |} false true
  = Ok (nl ++ ":: Third-party repository packages suggested as a replacement:" ++ nl
        ++ " foo                              1.2.3           -> 1.3.0" ++ nl)
  /\ pretty_format_sysupgrade sgr sample_env
       {| repo_packages_install_info := [update "linux" (Some "4.15") (Some "4.16")];
          thirdparty_repo_packages_install_info := [];
          aur_updates_install_info := [];
          repo_replacements_install_info := [];
          thirdparty_repo_replacements_install_info :=
            [update "foo" (Some "1.2.3") (Some "1.3.0");
             update "bar" (Some "1.2.3") (Some "2.0")];
          new_repo_deps_install_info := [];
          new_thirdparty_repo_deps_install_info := [];
          aur_deps_install_info := [] |} false true
     = Ok (nl ++ ":: Third-party repository package suggested as a replacement:" ++ nl
           ++ " bar                              1.2.3           -> 2.0" ++ nl
           ++ " foo                              1.2.3           -> 1.3.0" ++ nl
           ++ nl ++ ":: Repository package will be installed:" ++ nl
           ++ " linux                            4.15            -> 4.16" ++ nl).
Proof. split; reflexivity. Qed.

(** ** The decorated name *)

Section NameFacts.
Variable pp : Pprint.
Variables verbose print_repo : bool.

Lemma decorated_name_steps (color : bool) (r : InstallInfo) :
  decorated_name pp verbose print_repo color r
  = (st <- name_before_replaces pp verbose print_repo color r ;; Ok (add_replaces pp color r st)).
Proof.
  unfold decorated_name, name_before_replaces.
  now destruct (add_required_by pp color r
                  (name_with_origin pp verbose print_repo color r)).
Qed.

(** A record without dependants and groups is decorated in both
    modes. *)
Lemma name_before_replaces_plain (color : bool) (r : InstallInfo) :
  required_by r = [] -> members_of r = [] ->
  name_before_replaces pp verbose print_repo color r
  = Ok (add_provided_by pp color r (name_with_origin pp verbose print_repo color r)).
Proof.
  intros Hreq Hmem. unfold name_before_replaces, add_required_by, add_members_of.
  now rewrite Hreq, Hmem.
Qed.

(** Without colour, dependants or groups end in the call
    [_color_line('', ..., reset=False)] of a function without keyword
    parameters. *)
Lemma name_before_replaces_no_color_raises (r : InstallInfo) :
  required_by r <> [] \/ members_of r <> [] ->
  name_before_replaces pp verbose print_repo false r = Raise TypeError.
Proof.
  intro H. unfold name_before_replaces, add_required_by, add_members_of.
  destruct (required_by r) as [| p ps]; [| reflexivity].
  destruct (members_of r) as [| g gs]; [now destruct H |].
  unfold _n. now destruct (Z.of_nat (List.length (g :: gs)) =? 1).
Qed.

Lemma format_grp (count : Z) (x : string) :
  format (_n "{grp} group" "{grp} groups" count) [] [("grp", x)]
  = Ok (x ++ (if count =? 1 then " group" else " groups")).
Proof. unfold _n. now destruct (count =? 1). Qed.

Lemma add_required_by_color_ok (r : InstallInfo) (st : string * Z) :
  paren_template_ok pp -> is_ok (add_required_by pp true r st) = true.
Proof.
  intro Hpp. unfold add_required_by.
  destruct (required_by r) as [| p ps]; [reflexivity |].
  cbn [gettext _color_line_reset].
  repeat (first [rewrite format_kw | rewrite format_paren]; cbn [bind]).
  unfold _color_line.
  match goal with
  | |- context [format (color_line pp " ({})" ?c true) [?x] []] =>
      specialize (Hpp c x); destruct (format (color_line pp " ({})" c true) [x] [])
  end; [reflexivity | discriminate].
Qed.

Lemma add_members_of_color_ok (r : InstallInfo) (st : string * Z) :
  paren_template_ok pp -> is_ok (add_members_of pp true r st) = true.
Proof.
  intro Hpp. unfold add_members_of.
  destruct (members_of r) as [| g gs]; [reflexivity |].
  cbn [_color_line_reset].
  repeat (first [rewrite format_grp | rewrite format_paren]; cbn [bind]).
  unfold _color_line.
  match goal with
  | |- context [format (color_line pp " ({})" ?c true) [?x] []] =>
      specialize (Hpp c x); destruct (format (color_line pp " ({})" c true) [x] [])
  end; [reflexivity | discriminate].
Qed.

Lemma name_before_replaces_color_ok (r : InstallInfo) :
  paren_template_ok pp ->
  is_ok (name_before_replaces pp verbose print_repo true r) = true.
Proof.
  intro Hpp. unfold name_before_replaces.
  pose proof (add_required_by_color_ok r
                (name_with_origin pp verbose print_repo true r) Hpp) as H.
  destruct (add_required_by pp true r (name_with_origin pp verbose print_repo true r))
    as [st |]; [| discriminate].
  cbn [bind]. now apply add_members_of_color_ok.
Qed.
End NameFacts.

(** *** Colouring with escape sequences keeps the template *)




Lemma append_empty_r (s : string) : s ++ "" = s.
Proof. induction s as [| c s IH]; [reflexivity | simpl; now rewrite IH]. Qed.

Lemma append_assoc (a b c : string) : (a ++ b) ++ c = a ++ b ++ c.
Proof. induction a as [| x a IH]; [reflexivity | simpl; now rewrite IH]. Qed.

Lemma length_append (a b : string) :
  String.length (a ++ b) = (String.length a + String.length b)%nat.
Proof. induction a as [| x a IH]; [reflexivity | simpl; now rewrite IH]. Qed.







(** *** The replacements and their marker (C10) *)

Lemma add_replaces_nonempty (pp : Pprint) (color : bool) (r : InstallInfo)
      (st : string * Z) :
  replaces r <> [] ->
  add_replaces pp color r st
  = ((if color then "" else "# ") ++ fst st
     ++ _color_line pp color (replaces_text r) REPLACEMENTS_COLOR,
     snd st + len (replaces_text r)).
Proof.
  intro H. unfold add_replaces.
  destruct (replaces r); [contradiction |].
  now destruct color.
Qed.

(** C10.  For a record with replacements, the name handed to the template
    is the name built so far followed by the text of the replacements, and
    without colour the two characters "# " are put in front of it; with
    colour nothing is put in front.  [pkg_len] does not count the marker.
    Without colour a record with no dependants and no groups is decorated,
    and its line in the default layout starts with " # ". *)
Theorem replaces_marker_without_color
        (pp : Pprint) (env : Env) (verbose print_repo : bool) (r : InstallInfo) :
  replaces r <> [] ->
  (forall color,
      decorated_name pp verbose print_repo color r
      = (st <- name_before_replaces pp verbose print_repo color r ;;
         Ok ((if color then "" else "# ") ++ fst st
             ++ _color_line pp color (replaces_text r) REPLACEMENTS_COLOR,
             snd st + len (replaces_text r))))
  /\ (forall pkg_name pkg_len,
         decorated_name pp verbose print_repo false r = Ok (pkg_name, pkg_len) ->
         exists st,
           name_before_replaces pp verbose print_repo false r = Ok st
           /\ pkg_name = "# " ++ fst st ++ replaces_text r
           /\ pkg_len = snd st + len (replaces_text r))
  /\ (forall pkg_name pkg_len,
         decorated_name pp verbose print_repo true r = Ok (pkg_name, pkg_len) ->
         exists st,
           name_before_replaces pp verbose print_repo true r = Ok st
           /\ pkg_name = fst st ++ color_line pp (replaces_text r) REPLACEMENTS_COLOR true
           /\ pkg_len = snd st + len (replaces_text r))
  /\ (required_by r = [] -> members_of r = [] ->
      exists rest,
        pretty_format pp env verbose print_repo false None r
        = Ok (" # " ++ rest, sort_by env r)).
Proof.
  intro Hrep.
  assert (Hsteps : forall color,
             decorated_name pp verbose print_repo color r
             = (st <- name_before_replaces pp verbose print_repo color r ;;
                Ok ((if color then "" else "# ") ++ fst st
                    ++ _color_line pp color (replaces_text r) REPLACEMENTS_COLOR,
                    snd st + len (replaces_text r)))).
  { intro color. rewrite decorated_name_steps.
    destruct (name_before_replaces pp verbose print_repo color r) as [st |];
      [| reflexivity].
    cbn [bind]. now rewrite add_replaces_nonempty. }
  split; [exact Hsteps |].
  split; [| split].
  - intros pkg_name pkg_len H. rewrite Hsteps in H.
    apply bind_ok in H as (st & Hst & H). exists st.
    inversion H. auto.
  - intros pkg_name pkg_len H. rewrite Hsteps in H.
    apply bind_ok in H as (st & Hst & H). exists st.
    inversion H. auto.
  - intros Hreq Hmem.
    rewrite pretty_format_default, Hsteps.
    rewrite (name_before_replaces_plain pp verbose print_repo false r Hreq Hmem).
    destruct (days_old_ok r) as (days & ->).
    cbn [bind fst snd]. unfold default_line. eexists. reflexivity.
Qed.

Lemma replaces_marker_without_color_witness :
  decorated_name sgr false true false (replacement "pipewire-pulse" "extra" "pulseaudio")
  = Ok ("# extra/pipewire-pulse (replaces pulseaudio)", 42)
  /\ decorated_name sgr false true true (replacement "pipewire-pulse" "extra" "pulseaudio")
     = Ok (sgr_color_line "extra/" 13 true ++ sgr_bold_line "pipewire-pulse"
           ++ sgr_color_line " (replaces pulseaudio)" 14 true, 42).
Proof.
  assert (H : replaces (replacement "pipewire-pulse" "extra" "pulseaudio") <> [])
    by discriminate.
  destruct (replaces_marker_without_color sgr sample_env false true _ H) as (Hsteps & _).
  split; rewrite Hsteps; reflexivity.
Defined.

(** ** The version arrow (C6) *)

Lemma version_separator_cases (r : InstallInfo) :
  (version_separator r = ""
   <-> truthy (current_version r) = false /\ truthy (new_version r) = false)
  /\ (version_separator r = " -> "
      <-> truthy (current_version r) = true \/ truthy (new_version r) = true).
Proof.
  unfold version_separator.
  destruct (truthy (current_version r)), (truthy (new_version r)); simpl;
    repeat split; intros; try discriminate; auto;
    repeat match goal with
           | H : _ /\ _ |- _ => destruct H
           | H : _ \/ _ |- _ => destruct H
           end; discriminate.
Qed.

Lemma decorated_name_is_ok (pp : Pprint) (verbose print_repo color : bool)
      (r : InstallInfo) :
  (color = true -> paren_template_ok pp) ->
  (color = false -> required_by r = [] /\ members_of r = []) ->
  is_ok (decorated_name pp verbose print_repo color r) = true.
Proof.
  intros Hcolor Hplain. rewrite decorated_name_steps.
  destruct color.
  - pose proof (name_before_replaces_color_ok pp verbose print_repo r
                  (Hcolor eq_refl)) as H.
    now destruct (name_before_replaces pp verbose print_repo true r).
  - destruct (Hplain eq_refl) as [Hreq Hmem].
    now rewrite name_before_replaces_plain.
Qed.

(** C6.  The separator given to the template is " -> " when one of the
    two versions is there and the empty string exactly when both are
    missing or empty; in the default layout it stands after the second
    padding and before the new version.  Whether a record is rendered never
    depends on its versions: only the decoration of the name can raise,
    and it does not read them; a record with both versions empty is
    rendered, without the arrow, where the decoration of its name
    succeeds. *)
Theorem version_separator_omitted_iff_both_empty
        (pp : Pprint) (env : Env) (verbose print_repo color : bool) (r : InstallInfo) :
  (version_separator r = ""
   <-> truthy (current_version r) = false /\ truthy (new_version r) = false)
  /\ (version_separator r = " -> "
      <-> truthy (current_version r) = true \/ truthy (new_version r) = true)
  /\ pretty_format pp env verbose print_repo color None r
     = (days <- days_old r ;;
        st <- decorated_name pp verbose print_repo color r ;;
        Ok (" " ++ fst st ++ str_mul " " (spacing_count env (snd st))
            ++ " " ++ current_version_text pp env color r
            ++ str_mul " " (spacing2_count env r (snd st))
            ++ version_separator r
            ++ new_version_text pp env color r
            ++ days
            ++ verbose_text env verbose r,
            sort_by env r))
  /\ (forall cur new,
         is_ok (pretty_format pp env verbose print_repo color None
                              (with_versions r cur new))
         = is_ok (pretty_format pp env verbose print_repo color None r))
  /\ (truthy (current_version r) = false -> truthy (new_version r) = false ->
      (color = true -> paren_template_ok pp) ->
      (color = false -> required_by r = [] /\ members_of r = []) ->
      exists days st,
        pretty_format pp env verbose print_repo color None r
        = Ok (" " ++ fst st ++ str_mul " " (spacing_count env (snd st))
              ++ " " ++ current_version_text pp env color r
              ++ str_mul " " (spacing2_count env r (snd st))
              ++ new_version_text pp env color r
              ++ days
              ++ verbose_text env verbose r,
              sort_by env r)).
Proof.
  split; [apply version_separator_cases |].
  split; [apply version_separator_cases |].
  split; [apply pretty_format_default |].
  split.
  - intros cur new. now rewrite !pretty_format_default_is_ok.
  - intros Hcur Hnew Hcolor Hplain.
    rewrite pretty_format_default.
    destruct (days_old_ok r) as (days & ->).
    pose proof (decorated_name_is_ok pp verbose print_repo color r Hcolor Hplain) as Hok.
    destruct (decorated_name pp verbose print_repo color r) as [st |];
      [| discriminate].
    exists days, st. cbn [bind]. unfold default_line, version_separator.
    now rewrite Hcur, Hnew.
Qed.

Lemma version_separator_omitted_iff_both_empty_witness :
  let r := update "yay-git" None (Some "") in
  pretty_format sgr sample_env false false false None r
  = Ok (" yay-git" ++ str_mul " " 41, "9999yay-git")
  /\ pretty_format sgr sample_env false false false None
       (update "yay-git" None (Some "r12"))
     = Ok (" yay-git" ++ str_mul " " 41 ++ " -> r12", "9999yay-git")
  /\ version_separator r = ""
  /\ exists days st,
      pretty_format sgr sample_env false false false None r
      = Ok (" " ++ fst st ++ str_mul " " (spacing_count sample_env (snd st))
            ++ " " ++ current_version_text sgr sample_env false r
            ++ str_mul " " (spacing2_count sample_env r (snd st))
            ++ new_version_text sgr sample_env false r
            ++ days
            ++ verbose_text sample_env false r,
            sort_by sample_env r).
Proof.
  intro r.
  split; [reflexivity |]. split; [reflexivity |].
  destruct (version_separator_omitted_iff_both_empty sgr sample_env false false false r)
    as (Hsep & _ & _ & _ & H).
  split.
  - apply Hsep. split; reflexivity.
  - apply H; [reflexivity | reflexivity | discriminate | intros _; split; reflexivity].
Defined.

(** ** The paddings (C7) *)

Lemma repeat_string_length (s : string) (n : nat) :
  String.length (repeat_string s n) = (n * String.length s)%nat.
Proof.
  induction n as [| n IH]; [reflexivity |].
  simpl. now rewrite length_append, IH.
Qed.





(** ** The origin prefix (C8) *)

Section PrefixFacts.
Variable pp : Pprint.
Variable color : bool.

Lemma add_required_by_suffix (r : InstallInfo) (st st' : string * Z) :
  add_required_by pp color r st = Ok st' -> exists suffix, fst st' = fst st ++ suffix.
Proof.
  unfold add_required_by. destruct (required_by r) as [| p ps].
  - intro H. inversion H. exists "". now rewrite append_empty_r.
  - intro H.
    repeat (apply bind_ok in H as (? & _ & H)).
    inversion H. cbn [fst]. eauto.
Qed.

Lemma add_provided_by_suffix (r : InstallInfo) (st : string * Z) :
  exists suffix, fst (add_provided_by pp color r st) = fst st ++ suffix.
Proof.
  unfold add_provided_by. destruct (provided_by r).
  - exists "". now rewrite append_empty_r.
  - cbn [fst]. eauto.
Qed.

Lemma add_members_of_suffix (r : InstallInfo) (st st' : string * Z) :
  add_members_of pp color r st = Ok st' -> exists suffix, fst st' = fst st ++ suffix.
Proof.
  unfold add_members_of. destruct (members_of r) as [| g gs].
  - intro H. inversion H. exists "". now rewrite append_empty_r.
  - intro H.
    repeat (apply bind_ok in H as (? & _ & H)).
    inversion H. cbn [fst]. eauto.
Qed.

Lemma add_replaces_suffix (r : InstallInfo) (st : string * Z) :
  exists marker suffix,
    fst (add_replaces pp color r st) = marker ++ fst st ++ suffix
    /\ (marker = "" \/ (marker = "# " /\ color = false /\ replaces r <> [])).
Proof.
  unfold add_replaces. destruct (replaces r) as [| g gs].
  - exists "", "". rewrite append_empty_r. auto.
  - destruct color; cbn [negb fst].
    + exists "". eexists. split; [reflexivity | auto].
    + exists "# ". eexists. split; [reflexivity |]. right. repeat split. discriminate.
Qed.
End PrefixFacts.

Lemma name_with_origin_prefix (pp : Pprint) (verbose print_repo color : bool)
      (r : InstallInfo) :
  fst (name_with_origin pp verbose print_repo color r)
  = origin_prefix pp verbose print_repo color r ++ _bold_line pp color (name r).
Proof.
  unfold name_with_origin, origin_prefix.
  destruct ((print_repo || verbose) && truthy (repository r)); [reflexivity |].
  now destruct print_repo.
Qed.

(** C8, as the code has it.  The name handed to the template is, after
    the marker of a replacement without colour, the origin prefix, the
    bold name and the decorations.  The prefix is the repository and a
    slash in colour 13, the same for every repository, when the repository
    is known and [print_repo] or [verbose] is set; it is "aur/" in colour 9
    when the repository is not known and [print_repo] is set; there is none
    otherwise.  The colour computed from the repository name, the length
    of the name modulo 5 plus 10, is that of [pretty_format_repo_name],
    which the search listing uses and this formatter does not. *)
Theorem origin_prefix_of_decorated_name
        (pp : Pprint) (verbose print_repo color : bool) (r : InstallInfo)
        (pkg_name : string) (pkg_len : Z) :
  decorated_name pp verbose print_repo color r = Ok (pkg_name, pkg_len) ->
  (exists marker suffix,
      pkg_name = marker ++ (origin_prefix pp verbose print_repo color r
                            ++ _bold_line pp color (name r)) ++ suffix
      /\ (marker = "" \/ (marker = "# " /\ color = false /\ replaces r <> [])))
  /\ (forall repo,
         repository r = Some repo -> repo <> "" ->
         origin_prefix pp verbose print_repo color r
         = if print_repo || verbose
           then (if color then color_line pp (repo ++ "/") 13 true else repo ++ "/")
           else "")
  /\ (truthy (repository r) = false ->
      origin_prefix pp verbose print_repo color r
      = if print_repo
        then (if color then color_line pp "aur/" 9 true else "aur/")
        else "")
  /\ (forall repo,
         pretty_format_repo_name pp repo
         = color_line pp (repo ++ "/") (len repo mod 5 + 10) true
         /\ 10 <= len repo mod 5 + 10 <= 14).
Proof.
  intro H. split; [| split; [| split]].
  - unfold decorated_name in H.
    apply bind_ok in H as (st1 & H1 & H).
    apply bind_ok in H as (st2 & H2 & H).
    inversion H as [Hrep].
    apply add_required_by_suffix in H1 as (s1 & E1).
    destruct (add_provided_by_suffix pp color r st1) as (s2 & E2).
    apply add_members_of_suffix in H2 as (s3 & E3).
    destruct (add_replaces_suffix pp color r st2) as (marker & s4 & E4 & Hmarker).
    rewrite Hrep in E4. cbn [fst] in E4.
    exists marker, (s1 ++ s2 ++ s3 ++ s4). split; [| exact Hmarker].
    rewrite E4, E3, E2, E1, name_with_origin_prefix.
    now rewrite !append_assoc.
  - intros repo Hrepo Hne. unfold origin_prefix, _color_line. rewrite Hrepo.
    cbn [truthy or_empty].
    apply String.eqb_neq in Hne. rewrite Hne. cbn [negb].
    rewrite andb_true_r.
    destruct (print_repo || verbose) eqn:E; [reflexivity |].
    apply orb_false_elim in E as [-> _]. reflexivity.
  - intro Hno. unfold origin_prefix, _color_line. rewrite Hno, andb_false_r.
    reflexivity.
  - intro repo. split; [reflexivity |].
    pose proof (Z.mod_pos_bound (len repo) 5). lia.
Qed.

Lemma origin_prefix_of_decorated_name_witness :
  let r := replacement "pipewire-pulse" "extra" "pulseaudio" in
  decorated_name sgr true false true r
  = Ok (sgr_color_line "extra/" 13 true ++ sgr_bold_line "pipewire-pulse"
        ++ sgr_color_line " (replaces pulseaudio)" 14 true, 42)
  /\ origin_prefix sgr true false true r = sgr_color_line "extra/" 13 true
  /\ pretty_format_repo_name sgr "extra" = sgr_color_line "extra/" 10 true.
Proof.
  intro r.
  assert (H : decorated_name sgr true false true r
              = Ok (sgr_color_line "extra/" 13 true ++ sgr_bold_line "pipewire-pulse"
                    ++ sgr_color_line " (replaces pulseaudio)" 14 true, 42))
    by reflexivity.
  destruct (origin_prefix_of_decorated_name _ _ _ _ _ _ _ H) as (_ & Hrepo & _ & Hpal).
  split; [exact H |]. split.
  - rewrite (Hrepo "extra"); [reflexivity | reflexivity | discriminate].
  - destruct (Hpal "extra") as [-> _]. reflexivity.
Defined.

(** C8 as the specification has it fails on three counts: with [verbose]
    set and [print_repo] not, a known repository is prefixed all the same;
    the colour of the prefix is 13 for "core", where the colour computed
    from the name is 14; and every repository gets the one colour, "core"
    and "extra" alike, where the computed colours differ. *)
Lemma origin_prefix_counterexample :
  let r := replacement "linux" "core" "linux-lts" in
  name_with_origin plain true false false r = ("core/linux", 10)
  /\ fst (name_with_origin sgr false true true r)
     = sgr_color_line "core/" 13 true ++ sgr_bold_line "linux"
  /\ pretty_format_repo_name sgr "core" = sgr_color_line "core/" 14 true
  /\ fst (name_with_origin sgr false true true r)
     <> pretty_format_repo_name sgr "core" ++ sgr_bold_line "linux"
  /\ pretty_format_repo_name sgr "extra" = sgr_color_line "extra/" 10 true
  /\ fst (name_with_origin sgr false true true (replacement "linux" "extra" "linux-lts"))
     = sgr_color_line "extra/" 13 true ++ sgr_bold_line "linux".
Proof.
  intro r. repeat split. discriminate.
Qed.

(** ** Manual selection: no colour (C2) *)

Lemma esc_free_app (a b : string) : esc_free (a ++ b) = esc_free a && esc_free b.
Proof.
  unfold esc_free. induction a as [| c a IH]; [reflexivity |].
  simpl. now rewrite IH, andb_assoc.
Qed.

Lemma esc_free_join (sep : string) (l : list string) :
  esc_free sep = true -> forallb esc_free l = true -> esc_free (join sep l) = true.
Proof.
  intros Hsep. induction l as [| x [| y l] IH]; simpl; intro H.
  - reflexivity.
  - now rewrite andb_true_r in H.
  - apply andb_prop in H as [Hx H].
    rewrite !esc_free_app, Hx, Hsep. simpl. now apply IH.
Qed.

Lemma esc_free_repeat (s : string) (n : nat) :
  esc_free s = true -> esc_free (repeat_string s n) = true.
Proof.
  intro H. induction n as [| n IH]; [reflexivity |].
  simpl. now rewrite esc_free_app, H, IH.
Qed.

Lemma esc_free_uint (u : Decimal.uint) : esc_free (NilEmpty.string_of_uint u) = true.
Proof. induction u; simpl; auto. Qed.

Lemma esc_free_str_int (n : Z) : esc_free (str_int n) = true.
Proof.
  unfold str_int. destruct (Z.to_int n) as [u | u]; simpl; apply esc_free_uint.
Qed.

Lemma esc_free_days_old (r : InstallInfo) (days : string) :
  days_old r = Ok days -> esc_free days = true.
Proof.
  unfold days_old. destruct (devel_pkg_age_days r) as [d |].
  - destruct (d =? 0); intro H.
    + now inversion H.
    + cbn in H. inversion H. cbn. rewrite !esc_free_app, esc_free_str_int. reflexivity.
  - intro H. now inversion H.
Qed.

Lemma esc_free_decorated_name (pp : Pprint) (verbose print_repo : bool)
      (r : InstallInfo) (pkg_name : string) (pkg_len : Z) :
  record_esc_free r = true ->
  decorated_name pp verbose print_repo false r = Ok (pkg_name, pkg_len) ->
  esc_free pkg_name = true.
Proof.
  unfold record_esc_free. intros Hr H.
  apply andb_prop in Hr as [Hr Hreplaces].
  apply andb_prop in Hr as [Hr Hprovided].
  apply andb_prop in Hr as [Hr Hrepo].
  apply andb_prop in Hr as [Hr _].
  apply andb_prop in Hr as [Hr _].
  apply andb_prop in Hr as [Hname _].
  rewrite decorated_name_steps in H.
  destruct (required_by r) as [| p ps] eqn:Hreq.
  2: { rewrite name_before_replaces_no_color_raises in H; [discriminate |].
       left. rewrite Hreq. discriminate. }
  destruct (members_of r) as [| g gs] eqn:Hmem.
  2: { rewrite name_before_replaces_no_color_raises in H; [discriminate |].
       right. rewrite Hmem. discriminate. }
  rewrite name_before_replaces_plain in H by assumption.
  cbn [bind] in H. inversion H as [Heq].
  replace pkg_name
    with (fst (add_replaces pp false r
                 (add_provided_by pp false r
                    (name_with_origin pp verbose print_repo false r))))
    by now rewrite Heq.
  clear H Heq.
  assert (Horigin : esc_free (fst (name_with_origin pp verbose print_repo false r)) = true).
  { unfold name_with_origin, _color_line, _bold_line.
    destruct ((print_repo || verbose) && truthy (repository r)); cbn [fst].
    - rewrite !esc_free_app. now rewrite Hrepo, Hname.
    - destruct print_repo; cbn [fst]; [rewrite esc_free_app |]; now rewrite ?Hname. }
  assert (Hprov : esc_free (fst (add_provided_by pp false r
                   (name_with_origin pp verbose print_repo false r))) = true).
  { unfold add_provided_by. destruct (provided_by r) as [| q qs] eqn:Hq; [assumption |].
    cbn [fst]. unfold _color_line. rewrite !esc_free_app, Horigin.
    rewrite esc_free_join by (assumption || reflexivity). reflexivity. }
  unfold add_replaces. destruct (replaces r) as [| q qs] eqn:Hq; [assumption |].
  cbn [fst negb]. unfold replaces_text, _color_line. rewrite Hq.
  rewrite !esc_free_app, Hprov.
  rewrite esc_free_join by (assumption || reflexivity). reflexivity.
Qed.

Lemma esc_free_line (pp : Pprint) (env : Env) (verbose print_repo : bool)
      (r : InstallInfo) (line key : string) :
  env_esc_free env ->
  record_esc_free r = true ->
  pretty_format pp env verbose print_repo false None r = Ok (line, key) ->
  esc_free line = true.
Proof.
  intros (Hpar & Hcommon & Hdiff) Hr H.
  rewrite pretty_format_default in H.
  apply bind_ok in H as (days & Hdays & H).
  apply bind_ok in H as ([pkg_name pkg_len] & Hname & H).
  inversion H as [[Hline Hkey]]. clear H Hkey Hline.
  apply esc_free_days_old in Hdays.
  apply (esc_free_decorated_name _ _ _ _ _ _ Hr) in Hname.
  unfold record_esc_free in Hr.
  apply andb_prop in Hr as [Hr _].
  apply andb_prop in Hr as [Hr _].
  apply andb_prop in Hr as [Hr _].
  apply andb_prop in Hr as [Hr Hdesc].
  apply andb_prop in Hr as [Hr Hnew].
  apply andb_prop in Hr as [_ Hcur].
  unfold default_line, current_version_text, new_version_text, common_version,
    _color_line, version_separator, verbose_text, str_mul.
  cbn [fst snd].
  rewrite !esc_free_app, Hname, Hdays.
  rewrite !esc_free_repeat by reflexivity.
  rewrite !Hdiff, !Hcommon by (auto using Hcommon).
  destruct (truthy (current_version r) || truthy (new_version r));
    destruct (verbose && truthy (description r));
    rewrite ?esc_free_app, ?Hpar by assumption; reflexivity.
Qed.

Lemma mapM_ok_Forall {A B : Type} (f : A -> result B) (P : A -> Prop) (Q : B -> Prop)
      (l : list A) (out : list B) :
  (forall x y, P x -> f x = Ok y -> Q y) ->
  Forall P l -> mapM f l = Ok out -> Forall Q out.
Proof.
  intro Hf. revert out; induction l as [| x xs IH]; simpl; intros out HP H.
  - inversion H. constructor.
  - inversion HP as [| ? ? Hx Hxs]; subst.
    apply bind_ok in H as (y & Hy & H).
    apply bind_ok in H as (ys & Hys & H).
    inversion H. constructor; eauto.
Qed.

Lemma esc_free_join_Forall (sep : string) (l : list string) :
  esc_free sep = true -> Forall (fun s => esc_free s = true) l ->
  esc_free (join sep l) = true.
Proof.
  intros Hsep Hl. apply esc_free_join; [assumption |].
  apply forallb_forall. now apply Forall_forall.
Qed.

Lemma esc_free_upgradeable (pp : Pprint) (env : Env) (verbose print_repo : bool)
      (records : list InstallInfo) (text : string) :
  env_esc_free env ->
  forallb record_esc_free records = true ->
  pretty_format_upgradeable pp env verbose print_repo false None records = Ok text ->
  esc_free text = true.
Proof.
  intros Henv Hrecords H. unfold pretty_format_upgradeable in H.
  apply bind_ok in H as (lines & Hlines & H). inversion H as [Htext]. clear H Htext.
  apply esc_free_join_Forall; [reflexivity |].
  apply Forall_map.
  eapply Permutation_Forall; [apply Permutation_sym, sorted_by_perm |].
  eapply mapM_ok_Forall with (P := fun r => record_esc_free r = true);
    [| | exact Hlines].
  - intros r [line key] Hr Hline. cbn [fst]. eapply esc_free_line; eassumption.
  - apply Forall_forall. now apply forallb_forall.
Qed.

Lemma esc_free_header (info : InstallInfoFetcher) (c : category) :
  esc_free (category_header plain info true c) = true.
Proof.
  unfold category_header, _n.
  destruct (category_count info true c =? 1); destruct c; reflexivity.
Qed.

Lemma esc_free_sections (env : Env) (info : InstallInfoFetcher) (verbose : bool)
      (cats : list category) (sections : list (list string)) :
  env_esc_free env ->
  Forall (fun c => forallb record_esc_free (category_records info true c) = true) cats ->
  mapM (category_section plain env info verbose true) cats = Ok sections ->
  Forall (fun s => esc_free s = true) (List.concat sections).
Proof.
  intros Henv Hcats H. apply Forall_concat.
  eapply mapM_ok_Forall; [| exact Hcats | exact H].
  intros c section Hc Hsection. unfold category_section in Hsection.
  apply bind_ok in Hsection as (lines & Hlines & Hsection).
  inversion Hsection.
  constructor; [apply esc_free_header |].
  constructor; [| constructor].
  exact (esc_free_upgradeable plain env verbose (category_print_repo env c) _ lines
                              Henv Hc Hlines).
Qed.

(** Without colour the lines do not depend on the colouring primitives:
    they are not called. *)
Lemma pretty_format_upgradeable_no_color (pp pp' : Pprint) (env : Env)
      (verbose print_repo : bool) (template : option string)
      (records : list InstallInfo) :
  pretty_format_upgradeable pp env verbose print_repo false template records
  = pretty_format_upgradeable pp' env verbose print_repo false template records.
Proof. reflexivity. Qed.

(** C2.  With manual selection the report has the sections of the five
    categories that are not new dependencies and no other, whatever new
    dependencies were supplied, and it is the text that colouring
    primitives leaving every string unchanged give: no call of
    [color_line] or [bold_line] contributes to it.  So the report has no
    escape character when the strings of the records have none and the
    collaborators add none. *)
Theorem sysupgrade_manual_selection
        (pp : Pprint) (env : Env) (info : InstallInfoFetcher) (verbose : bool) :
  pretty_format_sysupgrade pp env info verbose true
  = (sections <- mapM (category_section plain env info verbose true)
                   (filter (fun c => nonempty (supplied_records info c))
                           [RepoReplacement; ThirdpartyReplacement; RepoUpdate;
                            ThirdpartyUpdate; AurUpdate]) ;;
     Ok (join nl (List.concat sections ++ [""])%list))
  /\ (forall c, category_header plain info true c
                = nl ++ ":: " ++ _n (fst (category_labels c)) (snd (category_labels c))
                                    (category_count info true c))
  /\ (forall pp' repo_deps thirdparty_deps aur_deps,
        pretty_format_sysupgrade pp env info verbose true
        = pretty_format_sysupgrade pp' env
            (with_new_deps info repo_deps thirdparty_deps aur_deps) verbose true)
  /\ (env_esc_free env ->
      (forall c, is_new_dep c = false ->
                 forallb record_esc_free (supplied_records info c) = true) ->
      forall text,
        pretty_format_sysupgrade pp env info verbose true = Ok text ->
        esc_free text = true).
Proof.
  assert (Hsections :
            pretty_format_sysupgrade pp env info verbose true
            = (sections <- mapM (category_section plain env info verbose true)
                             (filter (fun c => nonempty (supplied_records info c))
                                     [RepoReplacement; ThirdpartyReplacement; RepoUpdate;
                                      ThirdpartyUpdate; AurUpdate]) ;;
               Ok (join nl (List.concat sections ++ [""])%list))).
  { change (pretty_format_sysupgrade pp env info verbose true)
      with (pretty_format_sysupgrade plain env info verbose true).
    rewrite pretty_format_sysupgrade_blocks, append_categories_sections.
    reflexivity. }
  split; [exact Hsections |].
  split; [intro c; reflexivity |].
  split; [reflexivity |].
  intros Henv Hinfo text H. rewrite Hsections in H.
  apply bind_ok in H as (sections & Hmap & H). inversion H as [Htext].
  apply esc_free_join_Forall; [reflexivity |].
  apply Forall_app. split; [| repeat constructor].
  eapply esc_free_sections; [exact Henv | | exact Hmap].
  apply Forall_forall. intros c Hc. apply filter_In in Hc as [Hc _].
  assert (Hdep : is_new_dep c = false)
    by (simpl in Hc; intuition (subst; reflexivity)).
  unfold category_records. rewrite Hdep. now apply Hinfo.
Qed.

Lemma esc_free_common_prefix (a b : string) :
  esc_free a = true -> esc_free (common_prefix a b) = true.
Proof.
  revert b; induction a as [| x a IH]; intros [| y b] H; try reflexivity.
  unfold esc_free in *. simpl in *. apply andb_prop in H as [Hx Ha].
  destruct (Ascii.eqb x y); [| reflexivity].
  simpl. rewrite Hx. now apply IH.
Qed.

Lemma esc_free_substring (n m : nat) (s : string) :
  esc_free s = true -> esc_free (substring n m s) = true.
Proof.
  revert n m; induction s as [| c s IH]; intros n m H.
  - now destruct n, m.
  - unfold esc_free in *. simpl in H. apply andb_prop in H as [Hc Hs].
    destruct n as [| n].
    + destruct m as [| m]; [reflexivity |]. simpl. rewrite Hc. now apply IH.
    + simpl. now apply IH.
Qed.

Lemma sample_env_esc_free : env_esc_free sample_env.
Proof.
  repeat split.
  - intros s H. cbn [format_paragraph sample_env]. now rewrite esc_free_app, H.
  - intros a b Ha _. cbn [get_common_version sample_env sample_common_version fst].
    now apply esc_free_common_prefix.
  - intros a b Ha _. cbn [get_version_diff sample_env]. unfold sample_version_diff.
    now apply esc_free_substring.
Qed.

Lemma sysupgrade_manual_selection_witness :
  let info :=
    {| repo_packages_install_info := [update "linux" (Some "4.15") (Some "4.16")];
       thirdparty_repo_packages_install_info := [];
       aur_updates_install_info := [update "yay" (Some "9.0") (Some "10.0")];
       repo_replacements_install_info := [];
       thirdparty_repo_replacements_install_info := [];
       new_repo_deps_install_info := [update "libfoo" None (Some "1.0")];
       new_thirdparty_repo_deps_install_info := [];
       aur_deps_install_info := [update "yay-deps" None (Some "2.0")] |} in
  pretty_format_sysupgrade sgr sample_env info false true
  = Ok (nl ++ ":: Repository package will be installed:" ++ nl
        ++ " linux                            4.15            -> 4.16" ++ nl
        ++ nl ++ ":: AUR package will be installed:" ++ nl
        ++ " yay                              9.0             -> 10.0" ++ nl)
  /\ esc_free (nl ++ ":: Repository package will be installed:" ++ nl
               ++ " linux                            4.15            -> 4.16" ++ nl
               ++ nl ++ ":: AUR package will be installed:" ++ nl
               ++ " yay                              9.0             -> 10.0" ++ nl)
     = true.
Proof.
  intro info.
  assert (H : pretty_format_sysupgrade sgr sample_env info false true
              = Ok (nl ++ ":: Repository package will be installed:" ++ nl
                    ++ " linux                            4.15            -> 4.16" ++ nl
                    ++ nl ++ ":: AUR package will be installed:" ++ nl
                    ++ " yay                              9.0             -> 10.0" ++ nl))
    by reflexivity.
  split; [exact H |].
  destruct (sysupgrade_manual_selection sgr sample_env info false) as (_ & _ & _ & Hesc).
  apply Hesc; [exact sample_env_esc_free | | exact H].
  intros c Hc. destruct c; try discriminate Hc; reflexivity.
Defined.

(** ** The search listing (C5, C9) *)

Module SearchFacts.
Import SearchResults SearchSamples.

Section Facts.
Variable F : Type.
Variable F_of_int : Z -> F.
Variables Fadd Fmul : F -> F -> F.
Variable Fle : F -> F -> bool.
Variable format_2f : F -> string.
Variable pp : Pprint.
Variable env : Env.
Variable local_pkgs_versions : list (string * string).
Variable enumerated : bool.
Variable enumerate_from : Z.

Let key := get_sort_key F F_of_int Fadd Fmul.
Let print_from := print_enumerated F format_2f pp env local_pkgs_versions
                    enumerated enumerate_from.
Let idx := idx_text pp enumerated enumerate_from.

Lemma installed_text_ok (p : package F) :
  exists t, installed_text F pp local_pkgs_versions p = Ok t.
Proof.
  unfold installed_text.
  destruct (lookup (name F p) local_pkgs_versions) as [v |]; [| eauto].
  destruct (negb (version F p =? v)%string); eexists; reflexivity.
Qed.

Lemma print_package_lines (k : Z) (p : package F) :
  args_quiet env = false ->
  exists rest paragraph,
    print_package F format_2f pp env local_pkgs_versions enumerated enumerate_from k p
    = Ok [idx k ++ rest; paragraph].
Proof.
  intro Hq. unfold print_package. rewrite Hq.
  destruct (installed_text_ok p) as (t & ->).
  cbn [bind]. eauto.
Qed.

Lemma print_enumerated_lines (l : list (package F)) (k : Z) :
  args_quiet env = false ->
  exists out,
    print_from k l = Ok out
    /\ List.length out = (2 * List.length l)%nat
    /\ forall i p,
        nth_error l i = Some p ->
        exists rest, nth_error out (2 * i) = Some (idx (k + Z.of_nat i) ++ rest).
Proof.
  intro Hq. revert k; induction l as [| p l IH]; intro k.
  - exists []. repeat split. intros [| i] q Hi; discriminate.
  - destruct (print_package_lines k p Hq) as (rest & paragraph & Hp).
    destruct (IH (k + 1)) as (out & Hout & Hlen & Hnth).
    exists ((idx k ++ rest) :: paragraph :: out).
    unfold print_from in *. cbn [print_enumerated]. rewrite Hp, Hout.
    split; [reflexivity |].
    split; [simpl; lia |].
    intros [| i] q Hi.
    + exists rest. simpl. now rewrite Z.add_0_r.
    + destruct (Hnth i q Hi) as (rest' & Hrest). exists rest'.
      replace (2 * S i)%nat with (S (S (2 * i))) by lia.
      cbn [nth_error]. rewrite Hrest. do 3 f_equal. lia.
Qed.

(** C9, as the code has it.  With [enumerated], outside quiet mode,
    two strings are printed for each record, and the first of the
    record at place [i] of the sorted list, places counted from 0,
    starts with the bold text of [i + enumerate_from] followed by ") ":
    the numbers start at [enumerate_from], which is 0 unless the caller
    gives another value. *)
Theorem enumeration_starts_at_enumerate_from (packages : list (package F)) :
  args_quiet env = false ->
  enumerated = true ->
  exists out,
    print_package_search_results F F_of_int Fadd Fmul Fle format_2f pp env
      local_pkgs_versions enumerated enumerate_from packages = Ok out
    /\ List.length out = (2 * List.length packages)%nat
    /\ forall i p,
        nth_error (sorted_by (fun a b => Fle b a) key packages) i = Some p ->
        exists rest,
          nth_error out (2 * i)
          = Some (bold_line pp (str_int (Z.of_nat i + enumerate_from) ++ ") ")
                  ++ rest).
Proof.
  intros Hq Hen.
  destruct (print_enumerated_lines
              (sorted_by (fun a b => Fle b a) key packages) 0 Hq)
    as (out & Hout & Hlen & Hnth).
  exists out. split; [exact Hout |]. split.
  - rewrite Hlen. f_equal. apply Permutation_length, sorted_by_perm.
  - intros i p Hi. destruct (Hnth i p Hi) as (rest & Hrest).
    exists rest. rewrite Hrest. unfold idx, idx_text. rewrite Hen.
    reflexivity.
Qed.
End Facts.

Lemma enumeration_starts_at_enumerate_from_witness :
  exists line paragraph,
    sample_search true 1 [aur_package "yay" "10.0" (Some 10) (Some 200)]
    = Ok [sgr_bold_line "1) " ++ line; paragraph].
Proof.
  destruct (enumeration_starts_at_enumerate_from Z H_of_int Z.add Hmul Z.leb
              H_format_2f sgr sample_env [("yay", "9.0")] true 1
              [aur_package "yay" "10.0" (Some 10) (Some 200)] eq_refl eq_refl)
    as (out & Hout & Hlen & Hnth).
  destruct (Hnth 0%nat (aur_package "yay" "10.0" (Some 10) (Some 200)) eq_refl)
    as (rest & Hrest).
  destruct out as [| l0 [| l1 [| l2 out]]]; try discriminate Hlen.
  exists rest, l1. unfold sample_search. rewrite Hout.
  simpl in Hrest. now inversion Hrest.
Defined.

(** C9 as the specification has it fails: with [enumerated] and the
    default [enumerate_from], the first record of the listing is numbered
    0 and the second 1. *)
Lemma enumeration_default_counterexample :
  exists rest0 paragraph0 rest1 paragraph1,
    sample_search true default_enumerate_from
      [aur_package "yay" "10.0" (Some 10) (Some 200);
       repo_package "pacman" "5.0" "core"]
    = Ok [sgr_bold_line "0) " ++ rest0; paragraph0;
          sgr_bold_line "1) " ++ rest1; paragraph1]
    /\ sgr_bold_line "0) " ++ rest0 <> sgr_bold_line "1) " ++ rest0.
Proof.
  do 4 eexists. split; [reflexivity | discriminate].
Qed.

Section Order.
Variable F : Type.
Variable F_of_int : Z -> F.
Variables Fadd Fmul : F -> F -> F.
Variable Fle : F -> F -> bool.
Variable format_2f : F -> string.
(** The order of the floats that are keys is total: no NaN among
    them. *)
Hypothesis Fle_total : forall a b, Fle a b = true \/ Fle b a = true.
Hypothesis Fle_trans :
  forall a b c, Fle a b = true -> Fle b c = true -> Fle a c = true.

End Order.

End SearchFacts.

(** ** The notices (X1, X2, X3) *)



Lemma lookup_some_iff (k : string) (kw : list (string * string)) :
  (exists v, lookup k kw = Some v) <-> (exists v, In (k, v) kw).
Proof.
  induction kw as [| [k' v'] kw IH]; simpl.
  - split; intros [v H]; [discriminate | contradiction].
  - destruct (String.eqb_spec k k') as [-> | Hne].
    + split; intros _; exists v'; auto.
    + rewrite IH. split; intros [v H]; exists v; [auto |].
      destruct H as [H | H]; [| assumption]. inversion H. congruence.
Qed.

(** X2.  [print_package_uptodate] raises [KeyError] for a package that is
    not in the local dictionary, and for an installed package it gives one
    warning: the name, the bold installed version, the name of the source
    and "package is up to date - skipping".  It succeeds exactly for the
    installed packages. *)
Theorem print_package_uptodate_needs_installed
        (pp : Pprint) (db : PackageDB) (package_name package_source_name : string) :
  (lookup package_name (get_local_dict db) = None ->
   print_package_uptodate pp db package_name package_source_name = Raise KeyError)
  /\ (forall version,
         lookup package_name (get_local_dict db) = Some version ->
         print_package_uptodate pp db package_name package_source_name
         = Ok [Warning (package_name ++ " " ++ bold_line pp version ++ " "
                        ++ package_source_name
                        ++ " package is up to date - skipping")])
  /\ (is_ok (print_package_uptodate pp db package_name package_source_name) = true
      <-> exists version, In (package_name, version) (get_local_dict db)).
Proof.
  unfold print_package_uptodate.
  split; [intros ->; reflexivity |].
  split; [intros version ->; reflexivity |].
  rewrite <- lookup_some_iff.
  destruct (lookup package_name (get_local_dict db)) as [v |].
  - split; [eauto | reflexivity].
  - split; [discriminate | intros [v H]; discriminate].
Qed.

Lemma print_package_uptodate_needs_installed_witness :
  print_package_uptodate sgr sample_db "yay" "AUR"
  = Ok [Warning ("yay " ++ sgr_bold_line "9.0" ++ " AUR package is up to date - skipping")]
  /\ print_package_uptodate sgr sample_db "pikaur" "AUR" = Raise KeyError.
Proof.
  destruct (print_package_uptodate_needs_installed sgr sample_db "yay" "AUR")
    as (_ & Hin & _).
  destruct (print_package_uptodate_needs_installed sgr sample_db "pikaur" "AUR")
    as (Hout & _).
  split; [apply Hin | apply Hout]; reflexivity.
Defined.

(** X3.  [print_not_found_packages] gives one warning and then one line
    of standard error for each name, in the order of the list, each name
    through [format_paragraph].  The warning is there for the empty list
    too; it is bold, names the repositories or the AUR after [repo], and
    has the singular label exactly when the list has one name. *)
Theorem print_not_found_packages_lines
        (pp : Pprint) (env : Env) (not_found_packages : list string) (repo : bool) :
  let out := print_not_found_packages pp env not_found_packages repo in
  List.length out = S (List.length not_found_packages)
  /\ nth_error out 0
     = Some (Warning
               (bold_line pp
                  ((if (List.length not_found_packages =? 1)%nat
                    then "Following package cannot be found in "
                    else "Following packages cannot be found in ")
                   ++ (if repo then "repositories:" else "AUR:"))))
  /\ forall i package,
      nth_error not_found_packages i = Some package ->
      nth_error out (S i) = Some (Stderr (format_paragraph env package)).
Proof.
  intro out. unfold out, print_not_found_packages.
  split; [simpl; now rewrite length_map |].
  split.
  - cbn [nth_error]. unfold _n.
    replace (Z.of_nat (List.length not_found_packages) =? 1)
      with (List.length not_found_packages =? 1)%nat.
    + now destruct repo, (List.length not_found_packages =? 1)%nat.
    + destruct (Nat.eqb_spec (List.length not_found_packages) 1) as [-> | Hne];
        [reflexivity |].
      symmetry. apply Z.eqb_neq. lia.
  - intros i package Hi. cbn [nth_error].
    now rewrite nth_error_map, Hi.
Qed.

Lemma print_not_found_packages_lines_witness :
  print_not_found_packages plain sample_env ["yay-git"; "nope"] false
  = [Warning "Following packages cannot be found in AUR:";
     Stderr "    yay-git"; Stderr "    nope"]
  /\ nth_error (print_not_found_packages plain sample_env ["yay-git"; "nope"] false) 2
     = Some (Stderr "    nope").
Proof.
  split; [reflexivity |].
  destruct (print_not_found_packages_lines plain sample_env ["yay-git"; "nope"] false)
    as (_ & _ & H).
  apply (H 1%nat "nope"). reflexivity.
Defined.

(** ** Which inputs raise (X4, X5, X6) *)













(** ** The length that is counted for the name (X7, X8) *)

Lemma len_app (a b : string) : len (a ++ b) = len a + len b.
Proof. unfold len. rewrite length_append. lia. Qed.

Lemma name_with_origin_len (pp : Pprint) (verbose print_repo : bool) (r : InstallInfo) :
  len (fst (name_with_origin pp verbose print_repo false r))
  = snd (name_with_origin pp verbose print_repo false r)
  /\ len (fst (name_with_origin plain verbose print_repo true r))
     = snd (name_with_origin plain verbose print_repo true r).
Proof.
  unfold name_with_origin, _color_line, _bold_line. cbn [plain color_line bold_line].
  destruct ((print_repo || verbose) && truthy (repository r)); cbn [fst snd].
  - rewrite !len_app. change (len "/") with 1. lia.
  - destruct print_repo; cbn [fst snd]; rewrite ?len_app; lia.
Qed.

Lemma add_provided_by_len (pp : Pprint) (color : bool) (r : InstallInfo)
      (st : string * Z) :
  (color = false \/ pp = plain) ->
  len (fst st) = snd st ->
  len (fst (add_provided_by pp color r st)) = snd (add_provided_by pp color r st).
Proof.
  intros Hpp Hst. unfold add_provided_by.
  destruct (provided_by r); [assumption |].
  cbn [fst snd]. rewrite len_app, Hst. f_equal.
  destruct Hpp as [-> | ->]; [reflexivity | now destruct color].
Qed.

Lemma map_color_plain (c : Z) (l : list string) :
  map (fun p => _color_line plain true p c) l = l.
Proof. induction l as [| x l IH]; [reflexivity | cbn [map]; now rewrite IH]. Qed.

Lemma add_required_by_plain_len (r : InstallInfo) (st : string * Z) :
  len (fst st) = snd st ->
  exists st', add_required_by plain true r st = Ok st' /\ len (fst st') = snd st'.
Proof.
  intro Hst. unfold add_required_by.
  destruct (required_by r) as [| p ps]; [eauto |].
  cbn [_color_line_reset plain color_line].
  repeat (first [rewrite format_kw | rewrite format_paren]; cbn [bind]).
  change (_color_line plain true ", " 3) with ", ".
  rewrite map_color_plain, append_empty_r.
  eexists. split; [reflexivity |]. cbn [fst snd]. now rewrite len_app, Hst.
Qed.

Lemma add_members_of_plain_len (r : InstallInfo) (st : string * Z) :
  len (fst st) = snd st ->
  exists st', add_members_of plain true r st = Ok st' /\ len (fst st') = snd st'.
Proof.
  intro Hst. unfold add_members_of.
  destruct (members_of r) as [| g gs]; [eauto |].
  cbn [_color_line_reset plain color_line].
  repeat (first [rewrite format_grp | rewrite format_paren]; cbn [bind]).
  change (_color_line plain true ", " GROUP_COLOR) with ", ".
  rewrite map_color_plain, append_empty_r.
  eexists. split; [reflexivity |]. cbn [fst snd].
  unfold _color_line. cbn [plain color_line].
  now rewrite len_app, Hst.
Qed.

Lemma pkg_len_counts_visible_name_no_color
      (pp : Pprint) (verbose print_repo : bool) (r : InstallInfo)
      (pkg_name : string) (pkg_len : Z) :
  decorated_name pp verbose print_repo false r = Ok (pkg_name, pkg_len) ->
  len pkg_name = pkg_len + (if nonempty (replaces r) then 2 else 0).
Proof.
  intro H.
  rewrite decorated_name_steps in H.
  destruct (required_by r) as [| p ps] eqn:Hreq.
  2: { rewrite name_before_replaces_no_color_raises in H; [discriminate |].
       left. rewrite Hreq. discriminate. }
  destruct (members_of r) as [| g gs] eqn:Hmem.
  2: { rewrite name_before_replaces_no_color_raises in H; [discriminate |].
       right. rewrite Hmem. discriminate. }
  rewrite name_before_replaces_plain in H by assumption.
  cbn [bind] in H. inversion H as [Heq]. clear H.
  pose proof (add_provided_by_len pp false r
                (name_with_origin pp verbose print_repo false r) (or_introl eq_refl)
                (proj1 (name_with_origin_len pp verbose print_repo r))) as Hlen.
  unfold add_replaces in Heq.
  destruct (replaces r) as [| q qs]; cbn [nonempty].
  - rewrite Heq in Hlen. cbn [fst snd] in Hlen. lia.
  - inversion Heq as [[Hname Hl]]. cbn [negb].
    change ("# " ++ ?x) with (String "#" (String " " x)).
    unfold len in *. cbn [String.length]. unfold _color_line.
    rewrite length_append, Nat2Z.inj_succ, Nat2Z.inj_succ, Nat2Z.inj_add. lia.
Qed.

(** X7.  [pkg_len] is the length of the name without its colour codes.
    Without colour the name handed to the template has [pkg_len]
    characters, and two more, which are not counted, when the record has
    replacements (the marker "# ").  With colour, and colouring primitives
    that add nothing, every record is decorated and the name has exactly
    [pkg_len] characters: each decoration counts the text it adds. *)
Theorem pkg_len_counts_visible_name
        (pp : Pprint) (verbose print_repo : bool) (r : InstallInfo) :
  (forall pkg_name pkg_len,
      decorated_name pp verbose print_repo false r = Ok (pkg_name, pkg_len) ->
      len pkg_name = pkg_len + (if nonempty (replaces r) then 2 else 0))
  /\ exists pkg_name,
      decorated_name plain verbose print_repo true r = Ok (pkg_name, len pkg_name).
Proof.
  split.
  - intros pkg_name pkg_len H.
    exact (pkg_len_counts_visible_name_no_color pp verbose print_repo r _ _ H).
  - destruct (add_required_by_plain_len r
                (name_with_origin plain verbose print_repo true r)
                (proj2 (name_with_origin_len plain verbose print_repo r)))
      as (st1 & H1 & Hlen1).
    pose proof (add_provided_by_len plain true r st1 (or_intror eq_refl) Hlen1) as Hlen2.
    destruct (add_members_of_plain_len r _ Hlen2) as (st2 & H2 & Hlen3).
    unfold decorated_name. rewrite H1. cbn [bind]. rewrite H2. cbn [bind].
    exists (fst (add_replaces plain true r st2)).
    f_equal. unfold add_replaces.
    destruct (replaces r) as [| q qs].
    + destruct st2. cbn [fst snd] in *. now rewrite Hlen3.
    + cbn [negb fst snd]. f_equal.
      change (_color_line plain true ?x REPLACEMENTS_COLOR) with x.
      now rewrite len_app, Hlen3.
Qed.

Lemma pkg_len_counts_visible_name_witness :
  decorated_name sgr false true false (replacement "pipewire-pulse" "extra" "pulseaudio")
  = Ok ("# extra/pipewire-pulse (replaces pulseaudio)", 42)
  /\ len "# extra/pipewire-pulse (replaces pulseaudio)" = 42 + 2.
Proof.
  assert (H : decorated_name sgr false true false
                (replacement "pipewire-pulse" "extra" "pulseaudio")
              = Ok ("# extra/pipewire-pulse (replaces pulseaudio)", 42))
    by reflexivity.
  split; [exact H |].
  destruct (pkg_len_counts_visible_name sgr false true
              (replacement "pipewire-pulse" "extra" "pulseaudio")) as [Hlen _].
  exact (Hlen _ _ H).
Defined.

Lemma str_mul_len (s : string) (count : Z) :
  0 <= count -> len (str_mul s count) = count * len s.
Proof.
  intro H. unfold str_mul, len. rewrite repeat_string_length. lia.
Qed.

(** X8.  In the default layout without colour, for a record without
    replacements whose current version is its common part followed by its
    own part, the text before the arrow has 2 * column_width - 15
    characters whenever the second padding is not cut to one space: the
    arrows of all such records stand in one column, whatever the lengths
    of their names and versions, the names longer than the column too. *)
Theorem arrow_column
        (pp : Pprint) (env : Env) (verbose print_repo : bool) (r : InstallInfo)
        (line key : string) :
  replaces r = [] ->
  common_version env r
  ++ get_version_diff env (or_empty (current_version r)) (common_version env r)
  = or_empty (current_version r) ->
  pretty_format pp env verbose print_repo false None r = Ok (line, key) ->
  exists pkg_name pkg_len before after,
    decorated_name pp verbose print_repo false r = Ok (pkg_name, pkg_len)
    /\ line = before ++ version_separator r ++ after
    /\ (1 <= column_width env - 18 - len (or_empty (current_version r))
             - Z.max (-1) (pkg_len - column_width env) ->
        len before = 2 * column_width env - 15).
Proof.
  intros Hrep Hversion H.
  rewrite pretty_format_default in H.
  apply bind_ok in H as (days & _ & H).
  apply bind_ok in H as ([pkg_name pkg_len] & Hname & H).
  inversion H as [[Hline Hkey]]. clear H Hkey.
  pose proof (pkg_len_counts_visible_name_no_color pp verbose print_repo r _ _ Hname)
    as Hlen.
  rewrite Hrep in Hlen. cbn [nonempty] in Hlen.
  exists pkg_name, pkg_len,
    (" " ++ pkg_name ++ str_mul " " (spacing_count env pkg_len)
     ++ " " ++ current_version_text pp env false r
     ++ str_mul " " (spacing2_count env r pkg_len)),
    (new_version_text pp env false r ++ days ++ verbose_text env verbose r).
  split; [exact Hname |].
  split.
  - unfold default_line. now rewrite !append_assoc.
  - intro Hfit.
    rewrite !len_app.
    unfold current_version_text, _color_line. rewrite Hversion.
    rewrite !str_mul_len by (unfold spacing_count, spacing2_count; lia).
    change (len " ") with 1.
    unfold spacing_count, spacing2_count. lia.
Qed.

Lemma arrow_column_witness :
  let long := update "a-name-longer-than-the-column-is-wide" (Some "4.15")
                     (Some "4.16") in
  column_width sample_env = 32
  /\ len (name long) = 37
  /\ exists before after,
      pretty_format plain sample_env false false false None long
      = Ok (before ++ " -> " ++ after, "9998a-name-longer-than-the-column-is-wide")
      /\ len before = 49.
Proof.
  intro long.
  split; [reflexivity |]. split; [reflexivity |].
  assert (H : pretty_format plain sample_env false false false None long
              = Ok (" a-name-longer-than-the-column-is-wide" ++ " " ++ " 4.15"
                    ++ str_mul " " 5 ++ " -> 4.16",
                    "9998a-name-longer-than-the-column-is-wide"))
    by reflexivity.
  destruct (arrow_column plain sample_env false false long _ _ eq_refl eq_refl H)
    as (pkg_name & pkg_len & before & after & Hname & Hline & Hlen).
  exists before, after. split.
  - rewrite H. f_equal. f_equal. exact Hline.
  - inversion Hname as [[Hn Hl]]. rewrite <- Hl in Hlen.
    rewrite Hlen; [reflexivity | vm_compute; discriminate].
Defined.

(** ** The order of the records (X9) *)

Lemma Permutation_filter_same {A : Type} (f : A -> bool) (l l' : list A) :
  Permutation l l' -> Permutation (filter f l) (filter f l').
Proof.
  induction 1 as [| x l l' _ IH | x y l | l l' l'' _ IH1 _ IH2]; simpl.
  - constructor.
  - destruct (f x); [now constructor | assumption].
  - destruct (f x), (f y); try apply Permutation_refl. apply perm_swap.
  - eapply perm_trans; eassumption.
Qed.

Lemma filter_key_at_most_one {A : Type} (key : A -> string) (k : string) (l : list A) :
  NoDup (map key l) ->
  (List.length (filter (fun x => (k =? key x)%string) l) <= 1)%nat.
Proof.
  induction l as [| x l IH]; simpl; intro H; [lia |].
  inversion H as [| ? ? Hnotin Hnodup]; subst.
  destruct (String.eqb_spec k (key x)) as [-> | Hne]; [| auto].
  simpl. replace (filter (fun y => (key x =? key y)%string) l) with (@nil A); [simpl; lia |].
  symmetry. clear IH H Hnodup. induction l as [| y l IH]; [reflexivity |].
  simpl in *. destruct (String.eqb_spec (key x) (key y)) as [E | _].
  - exfalso. apply Hnotin. now left.
  - apply IH. intro Hin. apply Hnotin. now right.
Qed.

Lemma Permutation_short_eq {A : Type} (l l' : list A) :
  Permutation l l' -> (List.length l <= 1)%nat -> l = l'.
Proof.
  intros Hperm Hlen. destruct l as [| a [| b l]]; simpl in Hlen; try lia.
  - now apply Permutation_nil in Hperm.
  - now apply Permutation_length_1_inv in Hperm.
Qed.

Lemma sorted_by_permutation_distinct {A : Type} (key : A -> string) (l l' : list A) :
  Permutation l l' -> NoDup (map key l) ->
  sorted_by String.leb key l = sorted_by String.leb key l'.
Proof.
  intros Hperm Hnodup.
  apply stable_sorted_unique with (le := String.leb) (key := key);
    try apply String.leb_total;
    try (apply sorted_by_sorted; [apply String.leb_total | apply leb_trans]).
  intro k.
  rewrite !sorted_by_filter by apply leb_trans.
  rewrite !(filter_ext (fun x => equiv_key String.leb k (key x))
                       (fun x => (k =? key x)%string))
    by (intro x; apply equiv_key_leb).
  apply Permutation_short_eq.
  - now apply Permutation_filter_same.
  - now apply filter_key_at_most_one.
Qed.

Lemma mapM_ok_values {A B : Type} (f : A -> result B) (default : B)
      (l : list A) (out : list B) :
  mapM f l = Ok out ->
  out = map (value_or f default) l /\ Forall (fun x => is_ok (f x) = true) l.
Proof.
  revert out; induction l as [| x xs IH]; simpl; intros out H.
  - inversion H. auto.
  - apply bind_ok in H as (y & Hy & H).
    apply bind_ok in H as (ys & Hys & H).
    destruct (IH ys Hys) as [-> Hall]. inversion H. split.
    + cbn [map]. f_equal. unfold value_or. now rewrite Hy.
    + constructor; [now rewrite Hy | assumption].
Qed.

Lemma mapM_values_ok {A B : Type} (f : A -> result B) (default : B) (l : list A) :
  Forall (fun x => is_ok (f x) = true) l ->
  mapM f l = Ok (map (value_or f default) l).
Proof.
  induction 1 as [| x xs Hx _ IH]; [reflexivity |].
  cbn [mapM map]. unfold value_or at 1. destruct (f x) as [y |]; [| discriminate].
  cbn [bind]. now rewrite IH.
Qed.

(** X9.  When the sort keys of the records are distinct, the text of
    [pretty_format_upgradeable] does not depend on the order in which the
    records are given: every permutation of the list gives the same
    lines. *)
Theorem upgradeable_order_of_input
        (pp : Pprint) (env : Env) (verbose print_repo color : bool)
        (template : option string) (records records' : list InstallInfo)
        (text : string) :
  Permutation records records' ->
  NoDup (map (sort_by env) records) ->
  pretty_format_upgradeable pp env verbose print_repo color template records = Ok text ->
  pretty_format_upgradeable pp env verbose print_repo color template records' = Ok text.
Proof.
  intros Hperm Hnodup H. unfold pretty_format_upgradeable in *.
  apply bind_ok in H as (lines & Hlines & H).
  apply (mapM_ok_values _ ("", "")) in Hlines as [-> Hall].
  rewrite (mapM_values_ok _ ("", "") records')
    by (eapply Permutation_Forall; eassumption).
  cbn [bind]. rewrite <- H. do 3 f_equal. symmetry.
  apply sorted_by_permutation_distinct.
  - now apply Permutation_map.
  - rewrite map_map.
    rewrite (map_ext_in _ (sort_by env)); [assumption |].
    intros r Hr. rewrite Forall_forall in Hall. specialize (Hall r Hr).
    unfold value_or.
    destruct (pretty_format pp env verbose print_repo color template r)
      as [[line key] |] eqn:E; [| discriminate].
    cbn [snd]. eapply pretty_format_sort_by, E.
Qed.

Lemma upgradeable_order_of_input_witness :
  let foo := update "foo" (Some "1.2.3") (Some "1.3.0") in
  let bar := update "bar" (Some "1.2.3") (Some "2.0") in
  let abc := update "abc" (Some "1.2.3") (Some "1.3.1") in
  pretty_format_upgradeable plain sample_env false false false None [abc; foo; bar]
  = pretty_format_upgradeable plain sample_env false false false None [foo; bar; abc].
Proof.
  intros foo bar abc.
  assert (H : pretty_format_upgradeable plain sample_env false false false None
                                        [foo; bar; abc]
              = Ok (" bar                              1.2.3           -> 2.0" ++ nl ++
                    " abc                              1.2.3           -> 1.3.1" ++ nl ++
                    " foo                              1.2.3           -> 1.3.0"))
    by reflexivity.
  rewrite H.
  apply (upgradeable_order_of_input plain sample_env false false false None
                                    [foo; bar; abc] [abc; foo; bar]).
  - apply Permutation_sym. apply (Permutation_cons_append [foo; bar] abc).
  - repeat constructor; simpl; intuition discriminate.
  - exact H.
Defined.

(** ** A template of the caller (X10) *)




(** ** The frame of the report (X11) *)

Lemma join_snoc_empty (l : list string) :
  l <> [] -> join nl (l ++ [""])%list = join nl l ++ nl.
Proof.
  induction l as [| x [| y l] IH]; intro H; [contradiction | |].
  - reflexivity.
  - change (join nl ((x :: y :: l) ++ [""])%list)
      with (x ++ nl ++ join nl ((y :: l) ++ [""])%list).
    rewrite IH by discriminate.
    change (join nl (x :: y :: l)) with (x ++ nl ++ join nl (y :: l)).
    now rewrite !append_assoc.
Qed.

(** X11.  When no category has records the report is the empty string,
    and not a blank line.  Otherwise the report, when there is one, starts
    with a newline (the first header) and ends with one. *)
Theorem sysupgrade_frame
        (pp : Pprint) (env : Env) (info : InstallInfoFetcher) (verbose manual : bool) :
  ((forall c, category_records info manual c = []) ->
   pretty_format_sysupgrade pp env info verbose manual = Ok "")
  /\ (forall text,
         (exists c, category_records info manual c <> []) ->
         pretty_format_sysupgrade pp env info verbose manual = Ok text ->
         exists middle, text = nl ++ middle ++ nl).
Proof.
  rewrite pretty_format_sysupgrade_blocks, append_categories_sections.
  split.
  - intro Hempty.
    replace (filter (fun c => nonempty (category_records info manual c)) category_order)
      with (@nil category); [reflexivity |].
    symmetry. unfold category_order. cbn [filter]. now rewrite !Hempty.
  - intros text [c Hc] H.
    apply bind_ok in H as (sections & Hsections & H). inversion H as [Htext].
    assert (Hin : In c (filter (fun c => nonempty (category_records info manual c))
                               category_order)).
    { apply filter_In. split.
      - unfold category_order. destruct c; simpl; auto 10.
      - now destruct (category_records info manual c). }
    destruct (filter (fun c => nonempty (category_records info manual c)) category_order)
      as [| c0 cats]; [contradiction |].
    cbn [mapM] in Hsections.
    apply bind_ok in Hsections as (section & Hsection & Hsections).
    apply bind_ok in Hsections as (rest & _ & Hsections).
    inversion Hsections. unfold category_section in Hsection.
    apply bind_ok in Hsection as (lines & _ & Hsection). inversion Hsection.
    cbn [List.concat app].
    change (category_header pp info manual c0
            :: lines :: (List.concat rest ++ [""])%list)
      with ((category_header pp info manual c0 :: lines :: List.concat rest)
            ++ [""])%list.
    rewrite join_snoc_empty by discriminate.
    change (join nl (category_header pp info manual c0 :: lines :: List.concat rest))
      with (category_header pp info manual c0 ++ nl
            ++ join nl (lines :: List.concat rest)).
    unfold category_header, header.
    match goal with
    | |- exists _, ((nl ++ ?h) ++ nl ++ ?tail) ++ nl = _ => exists (h ++ nl ++ tail)
    end.
    now rewrite !append_assoc.
Qed.

Lemma sysupgrade_frame_witness :
  pretty_format_sysupgrade sgr sample_env no_updates false false = Ok ""
  /\ exists middle,
      pretty_format_sysupgrade plain sample_env
        (with_new_deps no_updates [update "libfoo" None (Some "1.0")] [] [])
        false false
      = Ok (nl ++ middle ++ nl).
Proof.
  split.
  - apply sysupgrade_frame. intro c. now destruct c.
  - assert (H : pretty_format_sysupgrade plain sample_env
                  (with_new_deps no_updates [update "libfoo" None (Some "1.0")] [] [])
                  false false
                = Ok (nl ++ ":: New dependency will be installed from repository:" ++ nl
                      ++ " libfoo" ++ str_mul " " 42 ++ " -> 1.0" ++ nl))
      by reflexivity.
    destruct (sysupgrade_frame plain sample_env
                (with_new_deps no_updates [update "libfoo" None (Some "1.0")] [] [])
                false false) as [_ Hframe].
    assert (Hdep : exists c,
               category_records
                 (with_new_deps no_updates [update "libfoo" None (Some "1.0")] [] [])
                 false c <> [])
      by (exists RepoNewDep; discriminate).
    destruct (Hframe _ Hdep H) as (middle & E).
    exists middle. now rewrite H, E.
Defined.

(** ** The age of a development package (X13) *)

Lemma days_old_text (r : InstallInfo) :
  days_old r
  = Ok match devel_pkg_age_days r with
       | Some d => if d =? 0 then "" else " (" ++ str_int d ++ " days old)"
       | None => ""
       end.
Proof.
  unfold days_old. destruct (devel_pkg_age_days r) as [d |]; [| reflexivity].
  now destruct (d =? 0).
Qed.

(** X13.  In the default layout without [verbose], the line of a record
    with an age is the line of the same record without age followed by
    " (d days old)", for every age [d] but 0: an age of 0 days is shown like
    no age, and a negative age is shown as it is. *)
Theorem age_zero_is_not_shown
        (pp : Pprint) (env : Env) (print_repo color : bool) (r : InstallInfo)
        (age : Z) (line key : string) :
  pretty_format pp env false print_repo color None (with_age r None) = Ok (line, key) ->
  pretty_format pp env false print_repo color None (with_age r (Some age))
  = Ok (line ++ (if age =? 0 then "" else " (" ++ str_int age ++ " days old)"), key).
Proof.
  rewrite !pretty_format_default, !days_old_text.
  cbn [bind with_age devel_pkg_age_days].
  change (decorated_name pp false print_repo color (with_age r (Some age)))
    with (decorated_name pp false print_repo color (with_age r None)).
  destruct (decorated_name pp false print_repo color (with_age r None)) as [st |];
    [| discriminate].
  cbn [bind]. intro H. inversion H as [[Hline Hkey]]. f_equal. f_equal.
  unfold default_line, verbose_text. cbn [andb].
  rewrite !append_empty_r, !append_assoc. reflexivity.
Qed.

Lemma age_zero_is_not_shown_witness :
  let r := update "yay-git" (Some "r1") (Some "r2") in
  pretty_format plain sample_env false false false None (with_age r (Some 0))
  = pretty_format plain sample_env false false false None (with_age r None)
  /\ pretty_format plain sample_env false false false None (with_age r (Some (-3)))
     = Ok (" yay-git" ++ str_mul " " 26 ++ "r1" ++ str_mul " " 13 ++ " -> r2"
           ++ " (-3 days old)", "9998yay-git").
Proof.
  intro r.
  assert (H : pretty_format plain sample_env false false false None (with_age r None)
              = Ok (" yay-git" ++ str_mul " " 26 ++ "r1" ++ str_mul " " 13 ++ " -> r2",
                    "9998yay-git"))
    by reflexivity.
  split.
  - rewrite (age_zero_is_not_shown plain sample_env false false r 0 _ _ H).
    rewrite H. reflexivity.
  - rewrite (age_zero_is_not_shown plain sample_env false false r (-3) _ _ H).
    reflexivity.
Defined.

(** ** The headers that count their own records (X14) *)

(** X14.  In the report every header but that of the third-party
    replacements has the singular label exactly when its own category has
    one record: the report is made of the sections of the categories with
    records, and the header of such a section is the bullet and the label
    chosen by the number of records of the section. *)
Theorem headers_count_their_own_records
        (pp : Pprint) (env : Env) (info : InstallInfoFetcher) (verbose manual : bool) :
  pretty_format_sysupgrade pp env info verbose manual
  = (sections <- mapM (category_section pp env info verbose manual)
                   (filter (fun c => nonempty (category_records info manual c))
                           category_order) ;;
     Ok (join nl (List.concat sections ++ [""])%list))
  /\ forall c lines,
      c <> ThirdpartyReplacement ->
      category_section pp env info verbose manual c = Ok lines ->
      nth_error lines 0
      = Some (nl ++ _color_line pp (negb manual) "::" (category_bullet c) ++ " "
              ++ _bold_line pp (negb manual)
                   (if (List.length (category_records info manual c) =? 1)%nat
                    then fst (category_labels c)
                    else snd (category_labels c))).
Proof.
  split.
  - rewrite pretty_format_sysupgrade_blocks. apply append_categories_sections.
  - intros c lines Hc H. unfold category_section in H.
    apply bind_ok in H as (text & _ & H). inversion H. cbn [nth_error].
    unfold category_header, header, _n. do 5 f_equal.
    replace (category_count info manual c)
      with (Z.of_nat (List.length (category_records info manual c)))
      by (destruct c; try reflexivity; contradiction).
    destruct (Nat.eqb_spec (List.length (category_records info manual c)) 1)
      as [-> | Hne]; [reflexivity |].
    assert (Hne' : (Z.of_nat (List.length (category_records info manual c)) =? 1) = false)
      by (apply Z.eqb_neq; lia).
    now rewrite Hne'.
Qed.

Lemma headers_count_their_own_records_witness :
  let info :=
    {| repo_packages_install_info := [];
       thirdparty_repo_packages_install_info := [];
       aur_updates_install_info := [update "yay" (Some "9.0") (Some "10.0");
                                    update "pikaur" (Some "0.9") (Some "1.0")];
       repo_replacements_install_info := [];
       thirdparty_repo_replacements_install_info := [];
       new_repo_deps_install_info := [];
       new_thirdparty_repo_deps_install_info := [];
       aur_deps_install_info := [update "go" None (Some "1.10")] |} in
  (exists lines, category_section plain sample_env info false false AurUpdate
                 = Ok [nl ++ ":: AUR packages will be installed:"; lines])
  /\ (exists lines, category_section plain sample_env info false false AurNewDep
                    = Ok [nl ++ ":: New dependency will be installed from AUR:"; lines]).
Proof.
  intro info.
  destruct (headers_count_their_own_records plain sample_env info false false)
    as [_ Hheader].
  split.
  - destruct (category_section plain sample_env info false false AurUpdate)
      as [[| h [| l [| x rest]]] |] eqn:E; try discriminate E.
    pose proof (Hheader AurUpdate [h; l] ltac:(discriminate) E) as H.
    inversion H. eauto.
  - destruct (category_section plain sample_env info false false AurNewDep)
      as [[| h [| l [| x rest]]] |] eqn:E; try discriminate E.
    pose proof (Hheader AurNewDep [h; l] ltac:(discriminate) E) as H.
    inversion H. eauto.
Defined.

(** ** The search listing: what is printed (X12) *)

Module SearchLines.
Import SearchResults SearchSamples.

Section Lines.
Variable F : Type.
Variable F_of_int : Z -> F.
Variables Fadd Fmul : F -> F -> F.
Variable Fle : F -> F -> bool.
Variable format_2f : F -> string.
Variable pp : Pprint.
Variable env : Env.
Variable local_pkgs_versions : list (string * string).
Variable enumerated : bool.
Variable enumerate_from : Z.



End Lines.

End SearchLines.
